(** * A fault-tolerant scraping pipeline (full-pipeline.ts)

    Shallow embedding of the Effect-TS pipeline of [src/full-pipeline.ts]:
    typed errors, the browser and page lifecycles under
    [Effect.acquireUseRelease], the retry schedule, the fixed rate-limit delay
    and the HTML extraction step.

    An [Effect] is a deterministic transformer of a [World].  The world holds
    what the program cannot decide by itself (how each launched browser is
    going to behave) and a chronological trace of every call the program makes
    to the outside (puppeteer calls and sleeps). *)

From Stdlib Require Import ZArith List String Ascii Bool Lia Arith DecimalString.
Import ListNotations.
Local Open Scope string_scope.
Local Open Scope Z_scope.

Set Implicit Arguments.

(* ------------------------------------------------------------------------- *)
(** ** JavaScript strings and numbers *)

(** Strings are sequences of 8-bit code units.  [String.prototype.includes]. *)
Fixpoint includes (needle hay : string) : bool :=
  if String.prefix needle hay then true
  else match hay with
       | EmptyString => false
       | String _ rest => includes needle rest
       end.

(** The white-space code units removed by [String.prototype.trim] that fit in
    one byte: TAB, LF, VT, FF, CR, SPACE and NBSP. *)
Definition isWhiteSpace (c : ascii) : bool :=
  let n := nat_of_ascii c in
  (((9 <=? n) && (n <=? 13)) || (n =? 32) || (n =? 160))%nat.

Fixpoint trimStart (s : string) : string :=
  match s with
  | EmptyString => EmptyString
  | String c rest => if isWhiteSpace c then trimStart rest else s
  end.

Fixpoint trimEnd (s : string) : string :=
  match s with
  | EmptyString => EmptyString
  | String c rest =>
      match trimEnd rest with
      | EmptyString => if isWhiteSpace c then EmptyString else String c EmptyString
      | rest' => String c rest'
      end
  end.

Definition trim (s : string) : string := trimEnd (trimStart s).

(** Template-literal rendering of an integral JavaScript number. *)
Definition numberToString (z : Z) : string :=
  NilZero.string_of_int (Z.to_int z).

(** [a || b] on an optional number: [undefined] and [0] are falsy. *)
Definition orDefault (o : option Z) (d : Z) : Z :=
  match o with
  | Some v => if v =? 0 then d else v
  | None => d
  end.

(* ------------------------------------------------------------------------- *)
(** ** Proxy configuration *)

Record ProcessEnv := {
  BRIGHT_DATA_CUSTOMER_ID : option string;
  BRIGHT_DATA_ZONE : option string;
  BRIGHT_DATA_PASSWORD : option string
}.

Record BrightDataConfig := {
  customerId : option string;
  zone : option string;
  password : option string;
  proxyHost : string;
  proxyPort : Z
}.

(** [BRIGHT_DATA_CONFIG]: the three credentials come from the process
    environment, host and port are constants. *)
Definition BRIGHT_DATA_CONFIG (env : ProcessEnv) : BrightDataConfig :=
  {| customerId := BRIGHT_DATA_CUSTOMER_ID env;
     zone := BRIGHT_DATA_ZONE env;
     password := BRIGHT_DATA_PASSWORD env;
     proxyHost := "brd.superproxy.io"; proxyPort := 33335 |}.

(** Truthiness of [string | undefined]: the empty string is falsy. *)
Definition truthy (o : option string) : bool :=
  match o with
  | Some EmptyString => false
  | Some _ => true
  | None => false
  end.

Definition isBrightDataConfigured (cfg : BrightDataConfig) : bool :=
  truthy (customerId cfg) && truthy (zone cfg) && truthy (password cfg).

Record ProxyConfig := {
  host : string;
  port : Z;
  username : string;
  proxyPassword : string
}.

Definition fromSome (o : option string) : string :=
  match o with Some s => s | None => "undefined" end.

Definition buildProxyConfig (cfg : BrightDataConfig) : option ProxyConfig :=
  if negb (isBrightDataConfigured cfg) then None
  else
    let username :=
      "brd-customer-" ++ fromSome (customerId cfg) ++ "-zone-" ++ fromSome (zone cfg) in
    Some {| host := proxyHost cfg; port := proxyPort cfg;
            username := username; proxyPassword := fromSome (password cfg) |}.

(* ------------------------------------------------------------------------- *)
(** ** Layer 1: typed errors *)

(** A value thrown by the browser engine or by a library: an [Error] object
    with its message, or anything else. *)
Inductive JsValue :=
| JsErrorObject (message : string)
| JsOtherValue (repr : string).

(** The six tagged errors.  [cause] is [unknown] in the source: it holds
    whatever was thrown. *)
Inductive ScrapingError :=
| NetworkError (message url : string) (cause : option Thrown)
| TimeoutError (message url : string) (timeout : Z)
| RateLimitError (message url : string) (retryAfter : option Z)
| IPBlockError (message url : string) (proxyId : option string)
| BrowserError (message : string) (cause : option Thrown)
| ParseError (message : string) (cause : option Thrown)
with Thrown :=
| ThrownTagged (e : ScrapingError)
| ThrownForeign (v : JsValue).

Definition _tag (e : ScrapingError) : string :=
  match e with
  | NetworkError _ _ _ => "NetworkError"
  | TimeoutError _ _ _ => "TimeoutError"
  | RateLimitError _ _ _ => "RateLimitError"
  | IPBlockError _ _ _ => "IPBlockError"
  | BrowserError _ _ => "BrowserError"
  | ParseError _ _ => "ParseError"
  end.

Definition errorMessage (e : ScrapingError) : string :=
  match e with
  | NetworkError m _ _ | TimeoutError m _ _ | RateLimitError m _ _
  | IPBlockError m _ _ | BrowserError m _ | ParseError m _ => m
  end.

(** [error instanceof Error]: tagged errors extend [Error]. *)
Definition instanceofError (t : Thrown) : option string :=
  match t with
  | ThrownTagged e => Some (errorMessage e)
  | ThrownForeign (JsErrorObject m) => Some m
  | ThrownForeign (JsOtherValue _) => None
  end.

(* ------------------------------------------------------------------------- *)
(** ** The world: browser behaviour and the trace of external calls *)

(** How one browser instance is going to answer each call made to it. *)
Record BrowserScript := {
  launch_result : option JsValue;          (* [None]: [puppeteer.launch] resolves *)
  newPage_result : option JsValue;
  authenticate_result : option JsValue;
  goto_result : JsValue + option Z;        (* rejects, or resolves with null or a response status *)
  content_result : JsValue + string;
  pageClose_result : option JsValue;
  browserClose_result : option JsValue
}.

Record LaunchOptions := {
  headless : bool;
  args : list string;
  ignoreHTTPSErrors : bool
}.

Inductive Event :=
| EvSleep (millis : Z)
| EvLaunch (browser : nat) (options : LaunchOptions)
| EvNewPage (browser : nat)
| EvAuthenticate (page : nat) (user pass : string)
| EvGoto (page : nat) (url waitUntil : string) (timeout : Z)
| EvContent (page : nat)
| EvPageClose (page : nat)
| EvBrowserClose (browser : nat)
| EvInvoke (call : nat).

Record World := {
  browsers : nat -> BrowserScript;   (* script of the n-th browser launched *)
  launched : nat;                    (* browsers launched so far *)
  invoked : nat;                     (* calls of a scripted operation so far *)
  NODE_TLS_REJECT_UNAUTHORIZED : option string;
  trace : list Event                 (* oldest first *)
}.

Definition log (ev : Event) (w : World) : World :=
  {| browsers := browsers w; launched := launched w; invoked := invoked w;
     NODE_TLS_REJECT_UNAUTHORIZED := NODE_TLS_REJECT_UNAUTHORIZED w;
     trace := trace w ++ [ev] |}.

Record Browser := { browserId : nat; browserScript : BrowserScript }.
Record Page := { pageId : nat; pageScript : BrowserScript }.
Record Response := { status : Z }.

(* ------------------------------------------------------------------------- *)
(** ** Promises: async functions that may throw *)

Definition Async (A : Type) : Type := World -> (Thrown + A) * World.

Definition resolve {A} (a : A) : Async A := fun w => (inr a, w).
Definition throw {A} (t : Thrown) : Async A := fun w => (inl t, w).

Definition await {A B} (m : Async A) (k : A -> Async B) : Async B :=
  fun w =>
    match m w with
    | (inl t, w1) => (inl t, w1)
    | (inr a, w1) => k a w1
    end.

Declare Scope async_scope.
Delimit Scope async_scope with async.
Notation "x <- m ;; k" := (await m (fun x => k))
  (at level 100, m at next level, right associativity) : async_scope.
Notation "m ;; k" := (await m (fun _ => k))
  (at level 100, right associativity) : async_scope.

(** Settle a call according to the script: reject with the scripted value or
    resolve with [a]. *)
Definition settle {A} (r : option JsValue) (a : A) : Async A :=
  match r with
  | Some v => throw (ThrownForeign v)
  | None => resolve a
  end.

Definition emit (ev : Event) : Async unit := fun w => (inr tt, log ev w).

Definition setTlsRejectUnauthorized (v : string) : Async unit :=
  fun w =>
    (inr tt,
     {| browsers := browsers w; launched := launched w; invoked := invoked w;
        NODE_TLS_REJECT_UNAUTHORIZED := Some v; trace := trace w |}).

(** [puppeteer.launch]: takes the next script of the world. *)
Definition puppeteer_launch (options : LaunchOptions) : Async Browser :=
  fun w =>
    let n := launched w in
    let s := browsers w n in
    let w1 :=
      {| browsers := browsers w; launched := S n; invoked := invoked w;
         NODE_TLS_REJECT_UNAUTHORIZED := NODE_TLS_REJECT_UNAUTHORIZED w;
         trace := trace w ++ [EvLaunch n options] |} in
    settle (launch_result s) {| browserId := n; browserScript := s |} w1.

Definition browser_newPage (b : Browser) : Async Page :=
  (emit (EvNewPage (browserId b)) ;;
   settle (newPage_result (browserScript b))
          {| pageId := browserId b; pageScript := browserScript b |})%async.

Definition page_authenticate (p : Page) (user pass : string) : Async unit :=
  (emit (EvAuthenticate (pageId p) user pass) ;;
   settle (authenticate_result (pageScript p)) tt)%async.

Definition page_goto (p : Page) (url waitUntil : string) (timeout : Z)
  : Async (option Response) :=
  (emit (EvGoto (pageId p) url waitUntil timeout) ;;
   match goto_result (pageScript p) with
   | inl v => throw (ThrownForeign v)
   | inr None => resolve None
   | inr (Some st) => resolve (Some {| status := st |})
   end)%async.

Definition page_content (p : Page) : Async string :=
  (emit (EvContent (pageId p)) ;;
   match content_result (pageScript p) with
   | inl v => throw (ThrownForeign v)
   | inr html => resolve html
   end)%async.

Definition page_close (p : Page) : Async unit :=
  (emit (EvPageClose (pageId p)) ;; settle (pageClose_result (pageScript p)) tt)%async.

Definition browser_close (b : Browser) : Async unit :=
  (emit (EvBrowserClose (browserId b)) ;;
   settle (browserClose_result (browserScript b)) tt)%async.

(* ------------------------------------------------------------------------- *)
(** ** Effects *)

Inductive Exit (A E : Type) :=
| Success (a : A)
| Failure (e : E).
Arguments Success {A E} a.
Arguments Failure {A E} e.

(** [None] is reserved for a run that was cut off because the driver of
    [Effect.retry] ran out of fuel. *)
Definition Effect (A E : Type) : Type := World -> option (Exit A E * World).

Definition Effect_succeed {A E} (a : A) : Effect A E := fun w => Some (Success a, w).
Definition Effect_fail {A E} (e : E) : Effect A E := fun w => Some (Failure e, w).
Definition Effect_void {E} : Effect unit E := Effect_succeed tt.

Definition Effect_flatMap {A B E} (f : A -> Effect B E) (self : Effect A E)
  : Effect B E :=
  fun w =>
    match self w with
    | Some (Success a, w1) => f a w1
    | Some (Failure e, w1) => Some (Failure e, w1)
    | None => None
    end.

Definition Effect_catchAll {A E E2} (f : E -> Effect A E2) (self : Effect A E)
  : Effect A E2 :=
  fun w =>
    match self w with
    | Some (Success a, w1) => Some (Success a, w1)
    | Some (Failure e, w1) => f e w1
    | None => None
    end.

Definition Effect_sleep {E} (millis : Z) : Effect unit E :=
  fun w => Some (Success tt, log (EvSleep millis) w).

(** [Effect.tryPromise({ try, catch })]. *)
Definition Effect_tryPromise {A E} (try : Async A) (catch : Thrown -> E) : Effect A E :=
  fun w =>
    match try w with
    | (inr a, w1) => Some (Success a, w1)
    | (inl t, w1) => Some (Failure (catch t), w1)
    end.

(** [Effect.try({ try, catch })] for a synchronous computation. *)
Definition Effect_try {A E} (try : Thrown + A) (catch : Thrown -> E) : Effect A E :=
  fun w =>
    match try with
    | inr a => Some (Success a, w)
    | inl t => Some (Failure (catch t), w)
    end.

(** [Effect.acquireUseRelease(acquire, use, release)]: when [acquire] fails
    nothing is released; otherwise [release] runs after [use] whatever its
    exit, and the exit of [use] is the result.  [release] cannot fail (its
    error type is [never]). *)
Definition Effect_acquireUseRelease {R A E}
  (acquire : Effect R E) (use : R -> Effect A E)
  (release : R -> Effect unit Empty_set) : Effect A E :=
  fun w =>
    match acquire w with
    | None => None
    | Some (Failure e, w1) => Some (Failure e, w1)
    | Some (Success r, w1) =>
        match use r w1 with
        | None => None
        | Some (ex, w2) =>
            match release r w2 with
            | None => None
            | Some (Success _, w3) => Some (ex, w3)
            | Some (Failure absurd, _) => match absurd with end
            end
        end
    end.

(* ------------------------------------------------------------------------- *)
(** ** Schedules ([effect/Schedule]) *)

(** One step of a schedule either stops or asks to recur after a delay, in
    milliseconds. *)
Inductive Decision :=
| Done
| Continue (delayMillis : Z).

Record Schedule (In Out : Type) := {
  SState : Type;
  initial : SState;
  step : In -> SState -> SState * Out * Decision
}.
Arguments initial {In Out} s.
Arguments step {In Out} s _ _.

(** [Schedule.forever]: recurs without delay and outputs the number of
    recurrences so far: 0, 1, 2, ... *)
Definition Schedule_forever {In} : Schedule In nat :=
  {| SState := nat; initial := O; step := fun _ n => (S n, n, Continue 0) |}.

Definition Schedule_map {In Out Out2} (f : Out -> Out2) (self : Schedule In Out)
  : Schedule In Out2 :=
  {| SState := SState self; initial := initial self;
     step := fun i st =>
       match step self i st with
       | (st1, out, d) => (st1, f out, d)
       end |}.

(** [Schedule.check]: continues only while the test holds. *)
Definition Schedule_check {In Out} (test : In -> Out -> bool) (self : Schedule In Out)
  : Schedule In Out :=
  {| SState := SState self; initial := initial self;
     step := fun i st =>
       match step self i st with
       | (st1, out, Done) => (st1, out, Done)
       | (st1, out, Continue d) =>
           if test i out then (st1, out, Continue d) else (st1, out, Done)
       end |}.

Definition Schedule_whileOutput {In Out} (f : Out -> bool) (self : Schedule In Out)
  : Schedule In Out :=
  Schedule_check (fun _ out => f out) self.

(** [Schedule.untilInput]: continues until the predicate holds of the input. *)
Definition Schedule_untilInput {In Out} (f : In -> bool) (self : Schedule In Out)
  : Schedule In Out :=
  Schedule_check (fun i _ => negb (f i)) self.

(** [Schedule.recurs(n)]: recurs [n] times. *)
Definition Schedule_recurs {In} (n : nat) : Schedule In nat :=
  Schedule_whileOutput (fun out => (out <? n)%nat) Schedule_forever.

(** [Schedule.delayed] with the output as the extra delay. *)
Definition Schedule_delayedSchedule {In} (self : Schedule In Z) : Schedule In Z :=
  {| SState := SState self; initial := initial self;
     step := fun i st =>
       match step self i st with
       | (st1, out, Done) => (st1, out, Done)
       | (st1, out, Continue d) => (st1, out, Continue (d + out))
       end |}.

(** [Schedule.exponential(base, factor = 2)]: the delay of the recurrence
    number [i] (from 0) is [base * factor ^ i]. *)
Definition Schedule_exponential {In} (base : Z) (factor : Z) : Schedule In Z :=
  Schedule_delayedSchedule
    (Schedule_map (fun i : nat => base * factor ^ Z.of_nat i) Schedule_forever).

(** [Schedule.intersect]: recurs only if both recur, after the longer delay. *)
Definition Schedule_intersect {In Out1 Out2}
  (that : Schedule In Out2) (self : Schedule In Out1) : Schedule In (Out1 * Out2) :=
  {| SState := SState self * SState that;
     initial := (initial self, initial that);
     step := fun i st =>
       match step self i (fst st), step that i (snd st) with
       | (s1, o1, Continue d1), (s2, o2, Continue d2) =>
           ((s1, s2), (o1, o2), Continue (Z.max d1 d2))
       | (s1, o1, _), (s2, o2, _) => ((s1, s2), (o1, o2), Done)
       end |}.

Definition Duration_seconds (n : Z) : Z := n * 1000.
Definition Duration_millis (n : Z) : Z := n.

(** The decisions a schedule takes on a sequence of inputs. *)
Fixpoint decisionsFrom {In Out} (sched : Schedule In Out) (st : SState sched)
  (inputs : list In) : list Decision :=
  match inputs with
  | [] => []
  | i :: rest =>
      match step sched i st with
      | (st1, _, d) => d :: decisionsFrom sched st1 rest
      end
  end.

Definition decisions {In Out} (sched : Schedule In Out) (inputs : list In)
  : list Decision :=
  decisionsFrom sched (initial sched) inputs.

(* ------------------------------------------------------------------------- *)
(** ** [Effect.retry] *)

Record RetryOptions (E Out : Type) := {
  schedule : Schedule E Out;
  until : E -> bool
}.

(** The driver sleeps only for a positive delay. *)
Definition driverSleep (delay : Z) (w : World) : World :=
  if delay <=? 0 then w else log (EvSleep delay) w.

(** Run [self]; on a failure feed it to the schedule, stop with that failure
    if the schedule is done, otherwise sleep and run [self] again.  [fuel]
    bounds the number of runs of [self]. *)
Fixpoint retryLoop {A E Out} (fuel : nat) (self : Effect A E)
  (sched : Schedule E Out) (st : SState sched) (w : World)
  : option (Exit A E * World) :=
  match fuel with
  | O => None
  | S fuel' =>
      match self w with
      | None => None
      | Some (Success a, w1) => Some (Success a, w1)
      | Some (Failure e, w1) =>
          match step sched e st with
          | (_, _, Done) => Some (Failure e, w1)
          | (st1, _, Continue d) => retryLoop fuel' self sched st1 (driverSleep d w1)
          end
      end
  end.

(** [Effect.retry(self, { schedule, until })].  The library builds the
    schedule it drives as [Schedule.untilInput(schedule, until)], that is
    [Schedule.check(schedule, (input, _) => !until(input))]: the effect is
    retried until a failure satisfies [until] (the [while] option is the one
    that retries as long as its predicate holds).  When the schedule is done
    the last failure is the failure of the whole. *)
Definition Effect_retry {A E Out} (fuel : nat) (self : Effect A E)
  (options : RetryOptions E Out) : Effect A E :=
  let sched := Schedule_untilInput (until options) (schedule options) in
  retryLoop fuel self sched (initial sched).

(* ------------------------------------------------------------------------- *)
(** ** Layer 2: browser functions *)

Definition TARGET_URL : string := "https://quotes.toscrape.com/js/".

(** The launch options: headless with the sandbox flags; behind a proxy,
    certificate errors are ignored and the proxy server is added. *)
Definition launchOptionsFor (proxyConfig : option ProxyConfig) : LaunchOptions :=
  match proxyConfig with
  | Some pc =>
      {| headless := true;
         args := ["--no-sandbox"; "--disable-setuid-sandbox";
                  "--proxy-server=" ++ host pc ++ ":" ++ numberToString (port pc)];
         ignoreHTTPSErrors := true |}
  | None =>
      {| headless := true;
         args := ["--no-sandbox"; "--disable-setuid-sandbox"];
         ignoreHTTPSErrors := false |}
  end.

Definition launchBrowser (proxyConfig : option ProxyConfig)
  : Effect Browser ScrapingError :=
  Effect_tryPromise
    (match proxyConfig with
     | Some _ =>
         (setTlsRejectUnauthorized "0" ;;
          puppeteer_launch (launchOptionsFor proxyConfig))%async
     | None => puppeteer_launch (launchOptionsFor proxyConfig)
     end)
    (fun error =>
       BrowserError
         (match proxyConfig with
          | Some _ => "Failed to launch browser with Bright Data proxy"
          | None => "Failed to launch browser"
          end)
         (Some error)).

(** The [catch] of the navigation step. *)
Definition navigateCatch (url : string) (timeout : Z) (error : Thrown)
  : ScrapingError :=
  match error with
  | ThrownTagged (RateLimitError _ _ _ as e) => e
  | ThrownTagged (IPBlockError _ _ _ as e) => e
  | ThrownTagged (NetworkError _ _ _ as e) => e
  | _ =>
      match instanceofError error with
      | Some m =>
          if includes "timeout" m
          then TimeoutError ("Navigation timeout after " ++ numberToString timeout ++ "ms")
                            url timeout
          else BrowserError "Failed to navigate or get content" (Some error)
      | None => BrowserError "Failed to navigate or get content" (Some error)
      end
  end.

(** The default parameter [timeout: number = 10000]. *)
Definition timeoutOrDefault (timeoutArg : option Z) : Z :=
  match timeoutArg with Some t => t | None => 10000 end.

(** The page lifecycle: create the page, navigate, read the content, close
    the page. *)
Definition navigatePageAndGetContent (browser : Browser) (url : string)
  (proxyConfig : option ProxyConfig) (timeoutArg : option Z)
  : Effect string ScrapingError :=
  let timeout := timeoutOrDefault timeoutArg in
  Effect_acquireUseRelease
    (* acquire: create the page *)
    (Effect_tryPromise
       (page <- browser_newPage browser ;;
        match proxyConfig with
        | Some pc =>
            (page_authenticate page (username pc) (proxyPassword pc) ;; resolve page)
        | None => resolve page
        end)%async
       (fun error => BrowserError "Failed to create page or authenticate" (Some error)))
    (* use: navigate and get content *)
    (fun page =>
       Effect_tryPromise
         (response <- page_goto page url "networkidle2" (Z.max timeout 30000) ;;
          match response with
          | Some r =>
              let status := status r in
              if status =? 429 then
                throw (ThrownTagged (RateLimitError ("Rate limited: " ++ url) url None))
              else if status =? 403 then
                throw (ThrownTagged (IPBlockError ("IP blocked: " ++ url) url None))
              else if status >=? 400 then
                throw (ThrownTagged
                         (NetworkError
                            ("HTTP error " ++ numberToString status ++ ": " ++ url)
                            url None))
              else page_content page
          | None => page_content page
          end)%async
         (navigateCatch url timeout))
    (* release: always close the page, ignore close errors *)
    (fun page =>
       Effect_catchAll (fun _ => Effect_void)
         (Effect_tryPromise (page_close page)
            (fun _ => JsErrorObject "Failed to close page"))).

(** The browser lifecycle around the page lifecycle. *)
Definition scrapeUrl (env : ProcessEnv) (url : string) (options : option (option Z))
  : Effect string ScrapingError :=
  let proxyConfig := buildProxyConfig (BRIGHT_DATA_CONFIG env) in
  let timeout :=
    orDefault (match options with Some o => o | None => None end) 10000 in
  Effect_acquireUseRelease
    (launchBrowser proxyConfig)
    (fun browser => navigatePageAndGetContent browser url proxyConfig (Some timeout))
    (fun browser =>
       Effect_catchAll (fun _ => Effect_void)
         (Effect_tryPromise (browser_close browser)
            (fun _ => JsErrorObject "Failed to close browser"))).

(* ------------------------------------------------------------------------- *)
(** ** Layer 3: retry logic *)

Definition retryableErrors : list string :=
  ["NetworkError"; "TimeoutError"; "RateLimitError"; "IPBlockError"; "BrowserError"].

(** Exponential backoff from one second, intersected with three recurrences. *)
Definition retryPolicy {In} : Schedule In (Z * nat) :=
  Schedule_intersect (Schedule_recurs 3)
    (Schedule_exponential (Duration_seconds 1) 2).

Definition isRetryableError (error : ScrapingError) : bool :=
  existsb (String.eqb (_tag error)) retryableErrors.

(** The number of runs the intersection with [Schedule.recurs(3)] can reach:
    the first run and three recurrences. *)
Definition retryFuel : nat := 4.

Definition retryIfRetryable {A} (effect : Effect A ScrapingError)
  : Effect A ScrapingError :=
  Effect_retry retryFuel effect
    {| schedule := retryPolicy; until := fun error => isRetryableError error |}.

(* ------------------------------------------------------------------------- *)
(** ** Layer 4: rate limiting *)

Definition withSimpleRateLimit {A E} (effect : Effect A E) : Effect A E :=
  Effect_flatMap (fun _ : unit => effect) (Effect_sleep (Duration_millis 100)).

(* ------------------------------------------------------------------------- *)
(** ** Scraping logic *)

(** The document tree produced by the HTML parser. *)
#[warnings="-register-all"]
Inductive Node :=
| TextNode (data : string)
| CommentNode (data : string)
| ElementNode (name : string) (children : list Node).

Definition Document := list Node.

(** Text of a node: the text nodes below it, concatenated in document order. *)
Fixpoint nodeText (n : Node) : string :=
  match n with
  | TextNode d => d
  | CommentNode _ => ""
  | ElementNode _ cs => String.concat "" (map nodeText cs)
  end.

(** Elements with the given tag name at or below a node, in document order. *)
Fixpoint selectNode (tag : string) (n : Node) : list Node :=
  match n with
  | ElementNode name cs =>
      (if String.eqb name tag then [n] else []) ++ flat_map (selectNode tag) cs
  | _ => []
  end.

(** [$(tag)]: the selection of a tag name in the whole document. *)
Definition select (tag : string) (doc : Document) : list Node :=
  flat_map (selectNode tag) doc.

(** [.text()] of a selection: the texts of its elements, concatenated. *)
Definition selectionText (sel : list Node) : string :=
  String.concat "" (map nodeText sel).

Record ScrapingResult := {
  title : string;
  spans : list string;
  url : string
}.

(** The calls into the cheerio library that extraction makes on a loaded
    document: [$(selector)], and [.text()] of a selection, which is the
    selection of the headings or, in the callback of [.map], the one element
    [$(el)]. *)
Inductive CheerioCall :=
| CallSelect (selector : string) (doc : Document)
| CallText (selection : list Node).

Section Pipeline.

(** [cheerio.load]: the HTML parser, which belongs to a library.  It
    returns the document or throws. *)
Variable cheerio_load : string -> Thrown + Document.

(** Whether a call into the library throws, and what (a [RangeError] on a
    document nested too deep, for one).  A call that does not throw returns
    what the document tree gives. *)
Variable cheerio_throws : CheerioCall -> option Thrown.

Variable env : ProcessEnv.

(** [$(selector)]. *)
Definition cheerio_select (doc : Document) (selector : string) : Thrown + list Node :=
  match cheerio_throws (CallSelect selector doc) with
  | Some thrown => inl thrown
  | None => inr (select selector doc)
  end.

(** [.text()] of a selection. *)
Definition cheerio_text (selection : list Node) : Thrown + string :=
  match cheerio_throws (CallText selection) with
  | Some thrown => inl thrown
  | None => inr (selectionText selection)
  end.

(** [.map((_i, el) => $(el).text().trim()).get()]: the elements are visited in
    document order and the first call that throws ends the visit. *)
Fixpoint mapTrimmedText (elements : list Node) : Thrown + list string :=
  match elements with
  | [] => inr []
  | el :: rest =>
      match cheerio_text [el] with
      | inl thrown => inl thrown
      | inr text =>
          match mapTrimmedText rest with
          | inl thrown => inl thrown
          | inr texts => inr (trim text :: texts)
          end
      end
  end.

(** The [try] of [parseHtml]: whatever is thrown inside it is caught. *)
Definition parseHtmlTry (html : string) : Thrown + ScrapingResult :=
  match cheerio_load html with
  | inl thrown => inl thrown
  | inr doc =>
      match cheerio_select doc "h1" with
      | inl thrown => inl thrown
      | inr headings =>
          match cheerio_text headings with
          | inl thrown => inl thrown
          | inr headingText =>
              let title := trim headingText in
              match cheerio_select doc "span" with
              | inl thrown => inl thrown
              | inr spanElements =>
                  match mapTrimmedText spanElements with
                  | inl thrown => inl thrown
                  | inr texts =>
                      let spans :=
                        filter (fun s => (0 <? String.length s)%nat) texts in
                      inr {| title := title; spans := spans; url := TARGET_URL |}
                  end
              end
          end
      end
  end.

Definition parseHtml (html : string) : Effect ScrapingResult ScrapingError :=
  Effect_try (parseHtmlTry html)
    (fun error => ParseError "Failed to parse HTML" (Some error)).

Definition scrapeWithRetry : Effect ScrapingResult ScrapingError :=
  Effect_flatMap parseHtml
    (retryIfRetryable
       (withSimpleRateLimit (scrapeUrl env TARGET_URL (Some (Some 30000))))).

End Pipeline.

(* ------------------------------------------------------------------------- *)
(** ** A scripted operation

    A test double for the operation handed to the generic wrappers: its
    n-th call is recorded in the trace and exits as the script says. *)

Definition scripted {A E} (script : nat -> Exit A E) : Effect A E :=
  fun w =>
    let n := invoked w in
    Some (script n,
          {| browsers := browsers w; launched := launched w; invoked := S n;
             NODE_TLS_REJECT_UNAUTHORIZED := NODE_TLS_REJECT_UNAUTHORIZED w;
             trace := trace w ++ [EvInvoke n] |}).

(** Observations on a trace. *)
Definition isInvoke (ev : Event) : bool :=
  match ev with EvInvoke _ => true | _ => false end.
Definition isLaunch (ev : Event) : bool :=
  match ev with EvLaunch _ _ => true | _ => false end.
Definition isPageClose (ev : Event) : bool :=
  match ev with EvPageClose _ => true | _ => false end.
Definition isBrowserClose (ev : Event) : bool :=
  match ev with EvBrowserClose _ => true | _ => false end.
Definition isContent (ev : Event) : bool :=
  match ev with EvContent _ => true | _ => false end.
Definition isRateLimitSleep (ev : Event) : bool :=
  match ev with EvSleep 100 => true | _ => false end.

Definition count (p : Event -> bool) (evs : list Event) : nat :=
  List.length (filter p evs).

(** A world with an empty trace. *)
Definition freshWorld (scripts : nat -> BrowserScript) : World :=
  {| browsers := scripts; launched := O; invoked := O;
     NODE_TLS_REJECT_UNAUTHORIZED := None; trace := [] |}.

(** The result and the trace of a run, for a world that started empty. *)
Definition outcome {A E} (run : option (Exit A E * World))
  : option (Exit A E * list Event) :=
  match run with
  | Some (ex, w) => Some (ex, trace w)
  | None => None
  end.

(** The delays of the sleeps of a trace other than the rate limiter's. *)
Fixpoint backoffDelays (evs : list Event) : list Z :=
  match evs with
  | [] => []
  | EvSleep d :: rest => if d =? 100 then backoffDelays rest else d :: backoffDelays rest
  | _ :: rest => backoffDelays rest
  end.

(** The library calls of extraction on [doc] all return: selecting the
    headings and reading their text, selecting the spans and reading the
    text of each. *)
Definition extractionCallsReturn (cheerio_throws : CheerioCall -> option Thrown)
  (doc : Document) : Prop :=
  cheerio_throws (CallSelect "h1" doc) = None
  /\ cheerio_throws (CallText (select "h1" doc)) = None
  /\ cheerio_throws (CallSelect "span" doc) = None
  /\ forall el, In el (select "span" doc) -> cheerio_throws (CallText [el]) = None.

(** The page is acquired when [newPage] resolves and, behind a proxy,
    [authenticate] resolves too. *)
Definition pageAcquired (proxyConfig : option ProxyConfig) (s : BrowserScript) : bool :=
  match newPage_result s, proxyConfig, authenticate_result s with
  | None, None, _ => true
  | None, Some _, None => true
  | _, _, _ => false
  end.

Definition browserAcquired (s : BrowserScript) : bool :=
  match launch_result s with None => true | Some _ => false end.

(** The same world where closing a page and closing a browser answer
    differently. *)
Definition withCloseResults (pc bc : option JsValue) (w : World) : World :=
  {| browsers := fun n =>
       let s := browsers w n in
       {| launch_result := launch_result s; newPage_result := newPage_result s;
          authenticate_result := authenticate_result s;
          goto_result := goto_result s; content_result := content_result s;
          pageClose_result := pc; browserClose_result := bc |};
     launched := launched w; invoked := invoked w;
     NODE_TLS_REJECT_UNAUTHORIZED := NODE_TLS_REJECT_UNAUTHORIZED w;
     trace := trace w |}.

(** The exit of reading the page content, as the navigation step reports it. *)
Definition contentExit (url : string) (timeout : Z) (s : BrowserScript)
  : Exit string ScrapingError :=
  match content_result s with
  | inr html => Success html
  | inl v => Failure (navigateCatch url timeout (ThrownForeign v))
  end.

Definition isStatusFailure (e : ScrapingError) : bool :=
  match e with
  | RateLimitError _ _ _ | IPBlockError _ _ _ | NetworkError _ _ _ => true
  | _ => false
  end.

(** The backoff delay before attempt [n] (counted from 1) as the
    specification words it: [baseDelay * multiplier ^ (n - 1)]. *)
Definition specBackoffDelay (n : nat) : Z :=
  Duration_seconds 1 * 2 ^ (Z.of_nat n - 1).

(** The delay [retryPolicy] asks for before attempt [n] (counted from 1):
    none before the first attempt; before attempt [k + 2] the decision of the
    step number [k] of the schedule. *)
Definition delayBeforeAttempt (n : nat) : option Z :=
  match n with
  | O | S O => None
  | S (S k) =>
      match nth_error (decisions (@retryPolicy unit) (repeat tt (S k))) k with
      | Some (Continue d) => Some d
      | _ => None
      end
  end.

(** The longest trace of the retry wrapper over a scripted operation whose
    calls so far number [c]: four calls, with the backoff sleeps between. *)
Definition attemptsTrace (c : nat) : list Event :=
  [EvInvoke c; EvSleep 1000; EvInvoke (S c); EvSleep 2000;
   EvInvoke (S (S c)); EvSleep 4000; EvInvoke (S (S (S c)))].

(* ------------------------------------------------------------------------- *)
(** ** Scenarios

    Concrete environments, browsers, operations and documents on which the
    properties below are exercised. *)

(** An environment without proxy credentials. *)
Definition noProxyEnv : ProcessEnv :=
  {| BRIGHT_DATA_CUSTOMER_ID := None; BRIGHT_DATA_ZONE := None;
     BRIGHT_DATA_PASSWORD := None |}.

(** A browser whose calls all resolve, with no response object and an empty
    page. *)
Definition idleScript : BrowserScript :=
  {| launch_result := None; newPage_result := None; authenticate_result := None;
     goto_result := inr None; content_result := inr "";
     pageClose_result := None; browserClose_result := None |}.

(** A browser that answers 200 and serves [html]. *)
Definition servingScript (html : string) : BrowserScript :=
  {| launch_result := None; newPage_result := None; authenticate_result := None;
     goto_result := inr (Some 200); content_result := inr html;
     pageClose_result := None; browserClose_result := None |}.

(** A browser that answers 429 and still serves a body. *)
Definition rateLimitedScript : BrowserScript :=
  {| launch_result := None; newPage_result := None; authenticate_result := None;
     goto_result := inr (Some 429);
     content_result := inr "<h1>Too Many Requests</h1>";
     pageClose_result := None; browserClose_result := None |}.

(** A browser whose navigation resolves with no response object. *)
Definition noResponseScript : BrowserScript :=
  {| launch_result := None; newPage_result := None; authenticate_result := None;
     goto_result := inr None;
     content_result := inr "<h1>Quotes</h1>";
     pageClose_result := None; browserClose_result := None |}.

(** An environment with the three proxy credentials. *)
Definition proxyEnv : ProcessEnv :=
  {| BRIGHT_DATA_CUSTOMER_ID := Some "c_1"; BRIGHT_DATA_ZONE := Some "web";
     BRIGHT_DATA_PASSWORD := Some "secret" |}.

(** A browser whose page is created but whose proxy authentication fails. *)
Definition authFailsScript : BrowserScript :=
  {| launch_result := None; newPage_result := None;
     authenticate_result := Some (JsErrorObject "net::ERR_PROXY_AUTH");
     goto_result := inr (Some 200); content_result := inr "<h1>Quotes</h1>";
     pageClose_result := None; browserClose_result := None |}.

(** The first browser is rate limited, every later one serves the page. *)
Definition rateLimitedOnce (n : nat) : BrowserScript :=
  match n with
  | O => rateLimitedScript
  | S _ => servingScript "<h1>Quotes</h1>"
  end.

(** The world one successful direct fetch of [TARGET_URL] leaves behind. *)
Definition afterOneFetch (html : string) : World :=
  {| browsers := fun _ => servingScript html; launched := 1; invoked := 0;
     NODE_TLS_REJECT_UNAUTHORIZED := None;
     trace := [EvSleep 100; EvLaunch 0 (launchOptionsFor None); EvNewPage 0;
               EvGoto 0 TARGET_URL "networkidle2" 30000; EvContent 0;
               EvPageClose 0; EvBrowserClose 0] |}.

(** An operation that fails once with a network error and would succeed on
    its second run. *)
Definition failsOnceWithNetworkError : nat -> Exit string ScrapingError :=
  fun n =>
    match n with
    | O => Failure (NetworkError "HTTP error 500: u" "u" None)
    | S _ => Success "<h1>ok</h1>"
    end.

(** An operation that fails once with a failure the wrapper retries, then
    succeeds. *)
Definition failsOnceThenSucceeds : nat -> Exit string ScrapingError :=
  fun n =>
    match n with
    | O => Failure (ParseError "Failed to parse HTML" None)
    | S _ => Success "<h1>ok</h1>"
    end.

(** A library none of whose calls on a document throws. *)
Definition neverThrows : CheerioCall -> option Thrown := fun _ => None.

(** A library whose [.text()] runs out of stack on every selection. *)
Definition textOverflows : CheerioCall -> option Thrown :=
  fun call =>
    match call with
    | CallText _ =>
        Some (ThrownForeign (JsErrorObject "Maximum call stack size exceeded"))
    | CallSelect _ _ => None
    end.

(** A parser that throws on every input. *)
Definition throwingLoad : string -> Thrown + Document :=
  fun _ => inl (ThrownForeign (JsErrorObject "parser crashed")).

(** A page with a paragraph and a span but no heading, as the parser
    returns it. *)
Definition noHeadingHtml : string := "<p>No heading here</p><span>text</span>".

Definition noHeadingDocument : Document :=
  [ElementNode "html"
     [ElementNode "head" [];
      ElementNode "body"
        [ElementNode "p" [TextNode "No heading here"];
         ElementNode "span" [TextNode "text"]]]].

Definition noHeadingLoad : string -> Thrown + Document :=
  fun _ => inr noHeadingDocument.

(** A page with one heading, three quotes and a white-space span between
    them, as the parser returns it. *)
Definition quotesHtml : string :=
  "<h1> Quotes to Scrape </h1><span>first</span><span> second </span><span>   </span><span>third</span>".

Definition quotesDocument : Document :=
  [ElementNode "html"
     [ElementNode "head" [];
      ElementNode "body"
        [ElementNode "h1" [TextNode " Quotes to Scrape "];
         ElementNode "span" [TextNode "first"];
         ElementNode "span" [TextNode " second "];
         ElementNode "span" [TextNode "   "];
         ElementNode "span" [TextNode "third"]]]].

Definition quotesLoad : string -> Thrown + Document := fun _ => inr quotesDocument.

(* ------------------------------------------------------------------------- *)
(** ** The session in closed form

    What one run of [scrapeUrl] calls and how it exits, read off the script
    of the browser it launches. *)

Definition launchFailureMessage (proxyConfig : option ProxyConfig) : string :=
  match proxyConfig with
  | Some _ => "Failed to launch browser with Bright Data proxy"
  | None => "Failed to launch browser"
  end.

(** The value the acquire step of the page lifecycle rejects with, if any. *)
Definition pageRejection (proxyConfig : option ProxyConfig) (s : BrowserScript)
  : option JsValue :=
  match newPage_result s, proxyConfig with
  | Some v, _ => Some v
  | None, Some _ => authenticate_result s
  | None, None => None
  end.

(** Whether the navigation step gets as far as [page.content]. *)
Definition readsContent (s : BrowserScript) : bool :=
  match goto_result s with
  | inl _ => false
  | inr None => true
  | inr (Some st) => negb (st >=? 400)
  end.

Definition navigationExit (url : string) (timeout : Z) (s : BrowserScript)
  : Exit string ScrapingError :=
  match goto_result s with
  | inl v => Failure (navigateCatch url timeout (ThrownForeign v))
  | inr None => contentExit url timeout s
  | inr (Some st) =>
      if st =? 429 then Failure (RateLimitError ("Rate limited: " ++ url) url None)
      else if st =? 403 then Failure (IPBlockError ("IP blocked: " ++ url) url None)
      else if st >=? 400 then
        Failure (NetworkError ("HTTP error " ++ numberToString st ++ ": " ++ url) url None)
      else contentExit url timeout s
  end.

Definition sessionExit (proxyConfig : option ProxyConfig) (url : string)
  (timeout : Z) (s : BrowserScript) : Exit string ScrapingError :=
  match launch_result s with
  | Some v =>
      Failure (BrowserError (launchFailureMessage proxyConfig) (Some (ThrownForeign v)))
  | None =>
      match pageRejection proxyConfig s with
      | Some v =>
          Failure (BrowserError "Failed to create page or authenticate"
                     (Some (ThrownForeign v)))
      | None => navigationExit url timeout s
      end
  end.

Definition pageCalls (proxyConfig : option ProxyConfig) (n : nat) (url : string)
  (timeout : Z) (s : BrowserScript) : list Event :=
  (EvNewPage n
   :: match newPage_result s with
      | Some _ => []
      | None =>
          match proxyConfig with
          | Some pc => [EvAuthenticate n (username pc) (proxyPassword pc)]
          | None => []
          end
          ++ (if pageAcquired proxyConfig s
              then EvGoto n url "networkidle2" (Z.max timeout 30000)
                   :: (if readsContent s then [EvContent n] else [])
                   ++ [EvPageClose n]
              else [])
      end)%list.

Definition sessionCalls (proxyConfig : option ProxyConfig) (n : nat) (url : string)
  (timeout : Z) (s : BrowserScript) : list Event :=
  (EvLaunch n (launchOptionsFor proxyConfig)
   :: match launch_result s with
      | Some _ => []
      | None => pageCalls proxyConfig n url timeout s ++ [EvBrowserClose n]
      end)%list.

(** The world a run of [scrapeUrl] leaves. *)
Definition afterSession (proxyConfig : option ProxyConfig) (url : string)
  (timeout : Z) (w : World) : World :=
  {| browsers := browsers w;
     launched := S (launched w);
     invoked := invoked w;
     NODE_TLS_REJECT_UNAUTHORIZED :=
       match proxyConfig with
       | Some _ => Some "0"
       | None => NODE_TLS_REJECT_UNAUTHORIZED w
       end;
     trace := (trace w
               ++ sessionCalls proxyConfig (launched w) url timeout
                    (browsers w (launched w)))%list |}.

(** The timeout [scrapeUrl] works with: [options?.timeout || 10000]. *)
Definition requestedTimeout (options : option (option Z)) : Z :=
  orDefault (match options with Some o => o | None => None end) 10000.

Definition isSleep (ev : Event) : bool :=
  match ev with EvSleep _ => true | _ => false end.
Definition isGoto (ev : Event) : bool :=
  match ev with EvGoto _ _ _ _ => true | _ => false end.
Definition isAuthenticate (ev : Event) : bool :=
  match ev with EvAuthenticate _ _ _ => true | _ => false end.
Definition isNewPage (ev : Event) : bool :=
  match ev with EvNewPage _ => true | _ => false end.

(** The timeout a caller asked for, 0 when none was given. *)
Definition givenTimeout (options : option (option Z)) : Z :=
  match options with
  | Some (Some v) => v
  | _ => 0
  end.

(** A browser that cannot be launched. *)
Definition launchFailsScript : BrowserScript :=
  {| launch_result := Some (JsErrorObject "Failed to launch the browser process");
     newPage_result := None; authenticate_result := None;
     goto_result := inr (Some 200); content_result := inr "<h1>Quotes</h1>";
     pageClose_result := None; browserClose_result := None |}.

(** A browser whose navigation runs into the deadline, and one whose
    navigation fails otherwise. *)
Definition navigationTimesOutScript : BrowserScript :=
  {| launch_result := None; newPage_result := None; authenticate_result := None;
     goto_result := inl (JsErrorObject "Navigation timeout of 30000 ms exceeded");
     content_result := inr "";
     pageClose_result := None; browserClose_result := None |}.

Definition navigationFailsScript : BrowserScript :=
  {| launch_result := None; newPage_result := None; authenticate_result := None;
     goto_result := inl (JsErrorObject "net::ERR_NAME_NOT_RESOLVED");
     content_result := inr "";
     pageClose_result := None; browserClose_result := None |}.

(* ------------------------------------------------------------------------- *)
(** ** The program: reporting and exit status *)

(** [JSON.stringify(result, null, 2)] for a scraping result. *)
Definition doubleQuote : string := String (ascii_of_nat 34) EmptyString.
Definition lineFeed : string := String (ascii_of_nat 10) EmptyString.

Definition hexDigit (n : nat) : string :=
  String (ascii_of_nat (if (n <? 10)%nat then 48 + n else 87 + n)) EmptyString.

(** One code unit inside a JSON string: the quote, the backslash and the
    control characters are escaped. *)
Definition quoteJSONChar (c : ascii) : string :=
  let n := nat_of_ascii c in
  if (n =? 8)%nat then "\b"
  else if (n =? 9)%nat then "\t"
  else if (n =? 10)%nat then "\n"
  else if (n =? 12)%nat then "\f"
  else if (n =? 13)%nat then "\r"
  else if (n =? 34)%nat then "\" ++ doubleQuote
  else if (n =? 92)%nat then "\\"
  else if (n <? 32)%nat then "\u00" ++ hexDigit (n / 16) ++ hexDigit (n mod 16)
  else String c EmptyString.

Fixpoint quoteJSONChars (s : string) : string :=
  match s with
  | EmptyString => EmptyString
  | String c rest => quoteJSONChar c ++ quoteJSONChars rest
  end.

Definition quoteJSONString (s : string) : string :=
  doubleQuote ++ quoteJSONChars s ++ doubleQuote.

(** An array of strings at the first nesting level, with an indentation of
    two spaces per level. *)
Definition stringifyArray (items : list string) : string :=
  match items with
  | [] => "[]"
  | _ =>
      "[" ++ lineFeed
      ++ String.concat ("," ++ lineFeed) (map (fun s => "    " ++ quoteJSONString s) items)
      ++ lineFeed ++ "  ]"
  end.

Definition JSON_stringify (result : ScrapingResult) : string :=
  "{" ++ lineFeed
  ++ "  " ++ doubleQuote ++ "title" ++ doubleQuote ++ ": " ++ quoteJSONString (title result)
  ++ "," ++ lineFeed
  ++ "  " ++ doubleQuote ++ "spans" ++ doubleQuote ++ ": " ++ stringifyArray (spans result)
  ++ "," ++ lineFeed
  ++ "  " ++ doubleQuote ++ "url" ++ doubleQuote ++ ": " ++ quoteJSONString (url result)
  ++ lineFeed ++ "}".

(** What a console call was given. *)
Inductive ConsoleArg :=
| ArgText (text : string)
| ArgError (error : ScrapingError).

Inductive ConsoleLine :=
| ConsoleLog (args : list ConsoleArg)
| ConsoleError (args : list ConsoleArg).

(** The process around the world: what was written to the console, oldest
    first, and the status [process.exit] was called with, if it was. *)
Record Process := {
  world : World;
  console : list ConsoleLine;
  exitCode : option Z
}.

(** An effect of the program either exits, or ends the process on the
    spot. *)
Inductive ProgramExit (A E : Type) :=
| Returned (ex : Exit A E)
| ProcessExited.
Arguments Returned {A E} ex.
Arguments ProcessExited {A E}.

Definition Program (A E : Type) : Type :=
  Process -> option (ProgramExit A E * Process).

(** An effect on the world, run inside the process. *)
Definition inProcess {A E} (effect : Effect A E) : Program A E :=
  fun p =>
    match effect (world p) with
    | Some (ex, w1) =>
        Some (Returned ex, {| world := w1; console := console p; exitCode := exitCode p |})
    | None => None
    end.

Definition Program_flatMap {A B E} (f : A -> Program B E) (self : Program A E)
  : Program B E :=
  fun p =>
    match self p with
    | Some (Returned (Success a), p1) => f a p1
    | Some (Returned (Failure e), p1) => Some (Returned (Failure e), p1)
    | Some (ProcessExited, p1) => Some (ProcessExited, p1)
    | None => None
    end.

(** [Effect.tap]: runs [f] on a success and keeps the value. *)
Definition Program_tap {A B E} (f : A -> Program B E) (self : Program A E)
  : Program A E :=
  Program_flatMap
    (fun a p =>
       match f a p with
       | Some (Returned (Success _), p1) => Some (Returned (Success a), p1)
       | Some (Returned (Failure e), p1) => Some (Returned (Failure e), p1)
       | Some (ProcessExited, p1) => Some (ProcessExited, p1)
       | None => None
       end)
    self.

Definition Program_catchAll {A E E2} (f : E -> Program A E2) (self : Program A E)
  : Program A E2 :=
  fun p =>
    match self p with
    | Some (Returned (Success a), p1) => Some (Returned (Success a), p1)
    | Some (Returned (Failure e), p1) => f e p1
    | Some (ProcessExited, p1) => Some (ProcessExited, p1)
    | None => None
    end.

Definition Console_log {E} (args : list ConsoleArg) : Program unit E :=
  fun p =>
    Some (Returned (Success tt),
          {| world := world p; console := (console p ++ [ConsoleLog args])%list;
             exitCode := exitCode p |}).

Definition Console_error {E} (args : list ConsoleArg) : Program unit E :=
  fun p =>
    Some (Returned (Success tt),
          {| world := world p; console := (console p ++ [ConsoleError args])%list;
             exitCode := exitCode p |}).

(** [Effect.sync(() => process.exit(code))]: never returns. *)
Definition process_exit {A E} (code : Z) : Program A E :=
  fun p =>
    Some (ProcessExited,
          {| world := world p; console := console p; exitCode := Some code |}).

Section Program.

Variable cheerio_load : string -> Thrown + Document.

Variable cheerio_throws : CheerioCall -> option Thrown.

Variable env : ProcessEnv.

Definition program : Program ScrapingResult Empty_set :=
  Program_catchAll
    (fun error : ScrapingError =>
       Program_flatMap (fun _ : unit => process_exit 1)
         (Console_error [ArgText "Pipeline failed:"; ArgError error]))
    (Program_tap
       (fun result : ScrapingResult =>
          Program_flatMap
            (fun _ : unit => Console_log [ArgText (JSON_stringify result)])
            (Console_log [ArgText "Scraping successful!"]))
       (inProcess (scrapeWithRetry cheerio_load cheerio_throws env))).

(** [Effect.runPromise(program).catch(...)]: the promise rejects only with a
    failure of [program], and [program] has none left. *)
Definition main (p : Process) : option Process :=
  match program p with
  | Some (Returned (Success _), p1) => Some p1
  | Some (Returned (Failure unhandled), _) => match unhandled with end
  | Some (ProcessExited, p1) => Some p1
  | None => None
  end.

End Program.

(** A process that has just started in a world. *)
Definition startProcess (w : World) : Process :=
  {| world := w; console := []; exitCode := None |}.

(** A string that does not start with white space. *)
Definition startsClean (s : string) : bool :=
  match s with
  | EmptyString => true
  | String c _ => negb (isWhiteSpace c)
  end.

(* ------------------------------------------------------------------------- *)
(** ** The two ingestion examples (examples/example-before.ts)

    The same fetch written with promises and with effects.  [fetch] is the
    global function of the platform: for a url it rejects or resolves with
    a response, whose body in turn can be read or not. *)

Record DataSource := { sourceUrl : string; sourceName : string }.
Record IngestedData := { dataSource : string; dataContent : string }.
Record FetchResponse := { responseStatus : Z; responseText : JsValue + string }.

Definition Fetch : Type := string -> JsValue + FetchResponse.

(** [response.ok]: the status is in the range 200-299. *)
Definition responseOk (response : FetchResponse) : bool :=
  (200 <=? responseStatus response) && (responseStatus response <=? 299).

Definition exampleSource : DataSource :=
  {| sourceUrl := "https://api.example.com/data"; sourceName := "Source 1" |}.

Module PromiseVersion.

(** An async function: the value it resolves with, or what it throws. *)
Definition fetchFromSource (fetch : Fetch) (source : DataSource)
  : JsValue + IngestedData :=
  match fetch (sourceUrl source) with
  | inl thrown => inl thrown
  | inr response =>
      if responseStatus response =? 429 then inl (JsErrorObject "Rate limited")
      else if responseStatus response =? 403 then inl (JsErrorObject "Access denied")
      else if negb (responseOk response) then
        inl (JsErrorObject ("HTTP " ++ numberToString (responseStatus response)))
      else
        match responseText response with
        | inl thrown => inl thrown
        | inr content =>
            inr {| dataSource := sourceName source; dataContent := content |}
        end
  end.

Definition main (fetch : Fetch) : JsValue + IngestedData :=
  fetchFromSource fetch exampleSource.

End PromiseVersion.

Module EffectVersion.

Inductive IngestionError :=
| NetworkError (message url : string)
| RateLimitError (message url : string)
| CaptchaError (message url : string).

Definition ingestionMessage (e : IngestionError) : string :=
  match e with
  | NetworkError m _ | RateLimitError m _ | CaptchaError m _ => m
  end.

Definition ingestionUrl (e : IngestionError) : string :=
  match e with
  | NetworkError _ u | RateLimitError _ u | CaptchaError _ u => u
  end.

(** An effect of the example: it exits and may write to the console. *)
Definition Logged (A E : Type) : Type :=
  list ConsoleLine -> Exit A E * list ConsoleLine.

Definition succeed {A E} (a : A) : Logged A E := fun out => (Success a, out).
Definition fail {A E} (e : E) : Logged A E := fun out => (Failure e, out).

Definition flatMap {A B E} (f : A -> Logged B E) (self : Logged A E) : Logged B E :=
  fun out =>
    match self out with
    | (Success a, out1) => f a out1
    | (Failure e, out1) => (Failure e, out1)
    end.

Definition catchAll {A E E2} (f : E -> Logged A E2) (self : Logged A E) : Logged A E2 :=
  fun out =>
    match self out with
    | (Success a, out1) => (Success a, out1)
    | (Failure e, out1) => f e out1
    end.

Definition tryPromise {A E} (try : JsValue + A) (catch : JsValue -> E) : Logged A E :=
  match try with
  | inr a => succeed a
  | inl thrown => fail (catch thrown)
  end.

Definition consoleError {E} (text : string) : Logged unit E :=
  fun out => (Success tt, (out ++ [ConsoleError [ArgText text]])%list).

(** The dependency of the fetch: an http client. *)
Record HttpClient := {
  httpFetch : string -> Logged FetchResponse IngestionError
}.

Definition HttpClientLive (fetch : Fetch) : HttpClient :=
  {| httpFetch := fun url =>
       tryPromise (fetch url) (fun _ => NetworkError ("Failed to fetch " ++ url) url) |}.

(** An effect that requires the client takes it as an argument;
    [Effect.provide] supplies it. *)
Definition fetchFromSource (source : DataSource) (http : HttpClient)
  : Logged IngestedData IngestionError :=
  flatMap
    (fun content : string =>
       succeed {| dataSource := sourceName source; dataContent := content |})
    (flatMap
       (fun response : FetchResponse =>
          if responseStatus response =? 429 then
            fail (RateLimitError ("Rate limited for " ++ sourceName source)
                    (sourceUrl source))
          else if responseStatus response =? 403 then
            fail (CaptchaError ("Captcha challenge for " ++ sourceName source)
                    (sourceUrl source))
          else if negb (responseOk response) then
            fail (NetworkError
                    ("HTTP " ++ numberToString (responseStatus response)
                     ++ " for " ++ sourceName source)
                    (sourceUrl source))
          else
            tryPromise (responseText response)
              (fun _ => NetworkError
                          ("Failed to read response from " ++ sourceName source)
                          (sourceUrl source)))
       (httpFetch http (sourceUrl source))).

Definition fallback (content : string) : IngestedData :=
  {| dataSource := "fallback"; dataContent := content |}.

Definition program (fetch : Fetch) : Logged IngestedData Empty_set :=
  catchAll
    (fun error : IngestionError =>
       match error with
       | RateLimitError m _ =>
           flatMap (fun _ : unit => succeed (fallback "Rate limited - using cached data"))
             (consoleError ("Rate limit hit: " ++ m))
       | CaptchaError m _ =>
           flatMap
             (fun _ : unit =>
                succeed (fallback "CAPTCHA required - manual intervention needed"))
             (consoleError ("CAPTCHA challenge: " ++ m))
       | NetworkError m _ =>
           flatMap (fun _ : unit => succeed (fallback "Network error - retry later"))
             (consoleError ("Network error: " ++ m))
       end)
    (fetchFromSource exampleSource (HttpClientLive fetch)).

End EffectVersion.

(** A server that answers with a status and a body, and one out of reach. *)
Definition answering (st : Z) (body : string) : Fetch :=
  fun _ => inr {| responseStatus := st; responseText := inr body |}.

Definition unreachable : Fetch :=
  fun _ => inl (JsErrorObject "fetch failed").

(* ========================================================================= *)
(** * Properties *)

Local Open Scope list_scope.

(** ** Strings *)

Lemma trimEnd_length_le (s : string) :
  (String.length (trimEnd s) <= String.length s)%nat.
Proof.
  induction s as [|c s IH]; simpl; [lia|].
  destruct (trimEnd s); [destruct (isWhiteSpace c)|]; simpl in *; lia.
Qed.

(** ** The retry policy *)

Lemma isRetryableError_tag (e : ScrapingError) :
  isRetryableError e = negb (String.eqb (_tag e) "ParseError").
Proof. destruct e; reflexivity. Qed.

(** The schedule of [retryPolicy]: its state counts the recurrences; the
    delay of recurrence [i] is 1000 * 2 ^ i, and the fourth step is the end. *)
Lemma retryPolicy_step {In} (i : In) (n m : nat) :
  step (@retryPolicy In) i (n, m) =
  (S n, S m, (1000 * 2 ^ Z.of_nat n, m),
   if (m <? 3)%nat then Continue (1000 * 2 ^ Z.of_nat n) else Done).
Proof.
  assert (0 < 2 ^ Z.of_nat n) by (apply Z.pow_pos_nonneg; lia).
  unfold retryPolicy; cbn -[Z.pow Z.mul Nat.ltb Z.max].
  change (Duration_seconds 1) with 1000.
  destruct (m <? 3)%nat; cbn -[Z.pow Z.mul Z.max]; [|reflexivity].
  rewrite Z.max_l by lia. reflexivity.
Qed.

Lemma retryPolicy_decisionsFrom {In} (inputs : list In) (n m : nat) :
  decisionsFrom (@retryPolicy In) (n, m) inputs =
  map (fun k => if (m + k <? 3)%nat then Continue (1000 * 2 ^ Z.of_nat (n + k)) else Done)
      (seq 0 (List.length inputs)).
Proof.
  revert n m; induction inputs as [|i inputs IH]; intros n m; [reflexivity|].
  cbn [decisionsFrom List.length seq map].
  rewrite retryPolicy_step, IH, <- seq_shift, map_map.
  rewrite !Nat.add_0_r. f_equal.
  apply map_ext; intros k.
  replace (S m + k)%nat with (m + S k)%nat by lia.
  replace (S n + k)%nat with (n + S k)%nat by lia. reflexivity.
Qed.

(** One turn of the driver of [retryIfRetryable]: a success or a retryable
    failure ends it; another failure is retried while recurrences remain. *)
Lemma retryLoop_policy {A} (fuel : nat) (self : Effect A ScrapingError)
  (n m : nat) (w : World) :
  retryLoop (S fuel) self
    (Schedule_untilInput (fun error => isRetryableError error) retryPolicy) (n, m) w =
  match self w with
  | None => None
  | Some (Success a, w1) => Some (Success a, w1)
  | Some (Failure e, w1) =>
      if (m <? 3)%nat && negb (isRetryableError e)
      then retryLoop fuel self
             (Schedule_untilInput (fun error => isRetryableError error) retryPolicy)
             (S n, S m) (log (EvSleep (1000 * 2 ^ Z.of_nat n)) w1)
      else Some (Failure e, w1)
  end.
Proof.
  cbn [retryLoop].
  destruct (self w) as [[[a|e] w1]|]; try reflexivity.
  change (step (Schedule_untilInput (fun error => isRetryableError error) retryPolicy) e (n, m))
    with (match step (@retryPolicy ScrapingError) e (n, m) with
          | (st1, out, Done) => (st1, out, Done)
          | (st1, out, Continue d) =>
              if negb (isRetryableError e) then (st1, out, Continue d) else (st1, out, Done)
          end).
  rewrite retryPolicy_step.
  assert (Hpos : 0 < 2 ^ Z.of_nat n) by (apply Z.pow_pos_nonneg; lia).
  destruct (m <? 3)%nat; [|reflexivity].
  destruct (isRetryableError e); cbn [negb andb]; [reflexivity|].
  unfold driverSleep.
  destruct (1000 * 2 ^ Z.of_nat n <=? 0) eqn:Hle; [apply Z.leb_le in Hle; lia|].
  reflexivity.
Qed.

Lemma retryIfRetryable_unfold {A} (self : Effect A ScrapingError) (w : World) :
  retryIfRetryable self w =
  retryLoop 4 self
    (Schedule_untilInput (fun error => isRetryableError error) retryPolicy) (O, O) w.
Proof. reflexivity. Qed.

(** The fuel of [retryIfRetryable] is never the reason to stop: more fuel
    changes nothing, and a total operation makes the wrapper total. *)
Lemma retryLoop_fuel_enough {A} (self : Effect A ScrapingError) (extra fuel n m : nat)
  (w : World) :
  (3 - m < fuel)%nat ->
  retryLoop (fuel + extra) self
    (Schedule_untilInput (fun error => isRetryableError error) retryPolicy) (n, m) w =
  retryLoop fuel self
    (Schedule_untilInput (fun error => isRetryableError error) retryPolicy) (n, m) w.
Proof.
  revert n m w; induction fuel as [|fuel IH]; intros n m w Hm; [lia|].
  change (S fuel + extra)%nat with (S (fuel + extra)).
  rewrite !retryLoop_policy.
  destruct (self w) as [[[a|e] w1]|]; try reflexivity.
  destruct (m <? 3)%nat eqn:Hlt; [|reflexivity].
  destruct (isRetryableError e); [reflexivity|]. cbn [negb andb].
  apply Nat.ltb_lt in Hlt. apply IH. lia.
Qed.

Lemma retryLoop_total {A} (self : Effect A ScrapingError) :
  (forall w, self w <> None) ->
  forall fuel n m w, (3 - m < fuel)%nat ->
    retryLoop fuel self
      (Schedule_untilInput (fun error => isRetryableError error) retryPolicy) (n, m) w
    <> None.
Proof.
  intros Htot; induction fuel as [|fuel IH]; intros n m w Hm; [lia|].
  rewrite retryLoop_policy.
  specialize (Htot w). destruct (self w) as [[[a|e] w1]|]; try discriminate; [|congruence].
  destruct (m <? 3)%nat eqn:Hlt; [|discriminate].
  destruct (isRetryableError e); [discriminate|]. cbn [negb andb].
  apply Nat.ltb_lt in Hlt. apply IH. lia.
Qed.

(** A retryable failure makes the schedule stop at its first step. *)
Lemma retryIfRetryable_stops_on_retryable {A} (operation : Effect A ScrapingError)
  (e : ScrapingError) (w w1 : World) :
  isRetryableError e = true ->
  operation w = Some (Failure e, w1) ->
  retryIfRetryable operation w = Some (Failure e, w1).
Proof.
  intros He Hop. rewrite retryIfRetryable_unfold, retryLoop_policy, Hop, He.
  reflexivity.
Qed.

Lemma retryIfRetryable_success {A} (operation : Effect A ScrapingError)
  (a : A) (w w1 : World) :
  operation w = Some (Success a, w1) ->
  retryIfRetryable operation w = Some (Success a, w1).
Proof.
  intros Hop. rewrite retryIfRetryable_unfold, retryLoop_policy, Hop. reflexivity.
Qed.

Ltac retry_turn script :=
  rewrite retryLoop_policy; unfold scripted at 1; cbn [invoked log];
  match goal with
  | |- context [script ?n] =>
      let e := fresh "e" in
      destruct (script n) as [?|e]; [|destruct (isRetryableError e)];
      cbn [andb negb Nat.ltb Nat.leb]
  end.

Lemma retryIfRetryable_scripted_shape {A} (script : nat -> Exit A ScrapingError)
  (w : World) :
  match retryIfRetryable (scripted script) w with
  | Some (_, w') =>
      exists k, (1 <= k <= 4)%nat
        /\ trace w' = trace w ++ firstn (2 * k - 1) (attemptsTrace (invoked w))
  | None => False
  end.
Proof.
  rewrite retryIfRetryable_unfold.
  retry_turn script; try (exists 1%nat; split; [lia|reflexivity]).
  retry_turn script;
    try (exists 2%nat; split; [lia|]; cbn [trace log]; rewrite <- !app_assoc; reflexivity).
  retry_turn script;
    try (exists 3%nat; split; [lia|]; cbn [trace log]; rewrite <- !app_assoc; reflexivity).
  retry_turn script;
    try (exists 4%nat; split; [lia|]; cbn [trace log]; rewrite <- !app_assoc; reflexivity).
Qed.

Lemma retryIfRetryable_scripted_trace {A} (script : nat -> Exit A ScrapingError)
  (w : World) :
  exists r w' k,
    retryIfRetryable (scripted script) w = Some (r, w')
    /\ (1 <= k <= 4)%nat
    /\ trace w' = trace w ++ firstn (2 * k - 1) (attemptsTrace (invoked w)).
Proof.
  pose proof (retryIfRetryable_scripted_shape script w) as H.
  destruct (retryIfRetryable (scripted script) w) as [[r w']|]; [|contradiction].
  destruct H as [k Hk]. exists r, w', k. split; [reflexivity|exact Hk].
Qed.

Lemma delayBeforeAttempt_formula (n : nat) :
  delayBeforeAttempt n =
  if ((2 <=? n) && (n <=? 4))%nat then Some (1000 * 2 ^ (Z.of_nat n - 2)) else None.
Proof.
  destruct n as [|[|k]]; try reflexivity.
  unfold delayBeforeAttempt, decisions.
  change (initial (@retryPolicy unit)) with (O, O).
  rewrite retryPolicy_decisionsFrom, repeat_length.
  rewrite nth_error_map, nth_error_seq.
  replace (k <? S k)%nat with true by (symmetry; apply Nat.ltb_lt; lia).
  cbn [option_map Nat.add].
  replace (Z.of_nat (S (S k)) - 2) with (Z.of_nat k) by lia.
  destruct k as [|[|[|k]]]; reflexivity.
Qed.

(** ** The retry wrapper *)

(** C1, as the code runs: the wrapper hands [isRetryableError] to the [until]
    option of [Effect.retry], so a failure of a retryable kind (Network,
    Timeout, RateLimited, IPBlocked, BrowserFault) ends the wrapper at once:
    the failure comes back unchanged, the world is the one the first run
    left, and the operation is not executed again although three recurrences
    remain. *)
Theorem C1_retryable_failure_is_not_retried {A} (operation : Effect A ScrapingError)
  (e : ScrapingError) (w w1 : World) :
  In (_tag e) retryableErrors ->
  operation w = Some (Failure e, w1) ->
  retryIfRetryable operation w = Some (Failure e, w1).
Proof.
  intros Hin Hop. apply retryIfRetryable_stops_on_retryable; [|exact Hop].
  unfold isRetryableError. apply existsb_exists.
  exists (_tag e). split; [exact Hin|apply String.eqb_refl].
Qed.

Lemma C1_retryable_failure_is_not_retried_witness :
  retryIfRetryable (scripted failsOnceWithNetworkError)
    (freshWorld (fun _ => idleScript))
  = Some (Failure (NetworkError "HTTP error 500: u" "u" None),
          {| browsers := fun _ => idleScript; launched := 0; invoked := 1;
             NODE_TLS_REJECT_UNAUTHORIZED := None; trace := [EvInvoke 0] |}).
Proof.
  apply (@C1_retryable_failure_is_not_retried string
           (scripted failsOnceWithNetworkError)).
  - simpl. left. reflexivity.
  - reflexivity.
Defined.

(** ** The backoff of the retry policy *)

(** C4, as the claim words it, fails: the backoff before attempt 2 is the base
    delay, one second, not [baseDelay * multiplier ^ (2 - 1)].  The run shown
    is the wrapper over an operation that fails every time with a failure
    the wrapper retries. *)
Lemma C4_backoff_before_attempt_2_is_base_delay :
  delayBeforeAttempt 2 = Some 1000
  /\ specBackoffDelay 2 = 2000
  /\ delayBeforeAttempt 2 <> Some (specBackoffDelay 2)
  /\ outcome (retryIfRetryable
                (scripted (fun _ => Failure (ParseError "Failed to parse HTML" None)
                                    : Exit string ScrapingError))
                (freshWorld (fun _ => idleScript)))
     = Some (Failure (ParseError "Failed to parse HTML" None),
             [EvInvoke 0; EvSleep 1000; EvInvoke 1; EvSleep 2000;
              EvInvoke 2; EvSleep 4000; EvInvoke 3]).
Proof.
  split; [reflexivity|]. split; [reflexivity|]. split; [discriminate|].
  vm_compute. reflexivity.
Qed.

(** C4, amended: the operation runs at most 4 times (one run and 3
    recurrences); there is no backoff before attempt 1, and the backoff
    before attempt n, for n from 2 to 4, is
    [baseDelay * multiplier ^ (n - 2)] with a base delay of 1000 ms and
    multiplier 2, that is 1 s, 2 s and 4 s; there is no attempt 5. *)
Theorem C4_backoff_is_base_times_multiplier_pow :
  (forall n : nat,
     delayBeforeAttempt n =
     if ((2 <=? n) && (n <=? 4))%nat
     then Some (Duration_seconds 1 * 2 ^ (Z.of_nat n - 2)) else None)
  /\ (forall (A : Type) (script : nat -> Exit A ScrapingError) (w : World),
        exists r w' k,
          retryIfRetryable (scripted script) w = Some (r, w')
          /\ (1 <= k <= 4)%nat
          /\ trace w' = trace w ++ firstn (2 * k - 1) (attemptsTrace (invoked w))).
Proof.
  split.
  - exact delayBeforeAttempt_formula.
  - intros A script w. apply retryIfRetryable_scripted_trace.
Qed.

(** ** The page lifecycle *)

Ltac lifecycle_unfold :=
  unfold scrapeUrl, launchBrowser, puppeteer_launch, setTlsRejectUnauthorized,
    browser_close, navigatePageAndGetContent, Effect_acquireUseRelease,
    Effect_tryPromise, Effect_catchAll, Effect_void, Effect_succeed,
    browser_newPage, page_authenticate, page_goto, page_content, page_close,
    await, emit, settle, throw, resolve;
  cbn [browserScript browserId pageScript pageId newPage_result authenticate_result
       goto_result content_result pageClose_result browserClose_result launch_result
       status trace log fst snd browsers launched invoked
       NODE_TLS_REJECT_UNAUTHORIZED withCloseResults].

Ltac close_trace :=
  cbn [trace log]; rewrite <- ?app_assoc; reflexivity.

Lemma contentExit_not_status (url : string) (timeout : Z) (s : BrowserScript)
  (e : ScrapingError) :
  contentExit url timeout s = Failure e -> isStatusFailure e = false.
Proof.
  unfold contentExit. destruct (content_result s) as [v|html]; [|discriminate].
  intros [= <-]. destruct v as [m|r]; cbn; [|reflexivity].
  destruct (includes "timeout" m); reflexivity.
Qed.

(** With the page acquired and a response at hand, the status decides. *)
Lemma navigate_with_response (b : Browser) (url : string)
  (proxyConfig : option ProxyConfig) (timeoutArg : option Z) (w : World) (st : Z) :
  pageAcquired proxyConfig (browserScript b) = true ->
  goto_result (browserScript b) = inr (Some st) ->
  exists w' evs,
    navigatePageAndGetContent b url proxyConfig timeoutArg w =
      Some ((if st =? 429 then
               Failure (RateLimitError ("Rate limited: " ++ url) url None)
             else if st =? 403 then
               Failure (IPBlockError ("IP blocked: " ++ url) url None)
             else if st >=? 400 then
               Failure (NetworkError
                          ("HTTP error " ++ numberToString st ++ ": " ++ url) url None)
             else contentExit url (timeoutOrDefault timeoutArg) (browserScript b)), w')
    /\ trace w' = trace w ++ evs
    /\ count isContent evs = (if st >=? 400 then 0 else 1)%nat.
Proof.
  destruct b as [id [lr np au gt ct pc bc]]; cbn [browserScript goto_result].
  unfold pageAcquired, contentExit; cbn [newPage_result authenticate_result content_result].
  intros Hacq ->.
  assert (H429 : (429 >=? 400) = true) by reflexivity.
  assert (H403 : (403 >=? 400) = true) by reflexivity.
  destruct np; [discriminate|]; destruct proxyConfig as [pcfg|], au; try discriminate;
    lifecycle_unfold;
    (destruct (st =? 429) eqn:E429;
     [apply Z.eqb_eq in E429; subst st; rewrite H429
     |destruct (st =? 403) eqn:E403;
      [apply Z.eqb_eq in E403; subst st; rewrite H403
      |destruct (st >=? 400) eqn:E400]]);
    destruct pc; try destruct ct;
    do 2 eexists; (split; [reflexivity|split; [close_trace|reflexivity]]).
Qed.

(** With the page acquired and no response object, only the content counts. *)
Lemma navigate_without_response (b : Browser) (url : string)
  (proxyConfig : option ProxyConfig) (timeoutArg : option Z) (w : World) :
  pageAcquired proxyConfig (browserScript b) = true ->
  goto_result (browserScript b) = inr None ->
  exists w' evs,
    navigatePageAndGetContent b url proxyConfig timeoutArg w =
      Some (contentExit url (timeoutOrDefault timeoutArg) (browserScript b), w')
    /\ trace w' = trace w ++ evs
    /\ count isContent evs = 1%nat.
Proof.
  destruct b as [id [lr np au gt ct pc bc]]; cbn [browserScript goto_result].
  unfold pageAcquired, contentExit; cbn [newPage_result authenticate_result content_result].
  intros Hacq ->.
  destruct np; [discriminate|]; destruct proxyConfig as [pcfg|], au; try discriminate;
    lifecycle_unfold; destruct pc, ct;
    do 2 eexists; (split; [reflexivity|split; [close_trace|reflexivity]]).
Qed.

(** C5: once the page is acquired and [page.goto] resolves with a response,
    its status is classified exactly: 429 gives a RateLimited failure, 403 an
    IPBlocked failure, any other status from 400 up a Network failure, and a
    status below 400 gives no failure from this check (the exit is that of
    reading the content).  The classification comes before the content is
    read: for a status from 400 up the content is never read, whatever body
    the page holds. *)
Theorem C5_status_classification (b : Browser) (url : string)
  (proxyConfig : option ProxyConfig) (timeoutArg : option Z) (w : World) (st : Z) :
  pageAcquired proxyConfig (browserScript b) = true ->
  goto_result (browserScript b) = inr (Some st) ->
  exists r w' evs,
    navigatePageAndGetContent b url proxyConfig timeoutArg w = Some (r, w')
    /\ trace w' = trace w ++ evs
    /\ (st = 429 -> r = Failure (RateLimitError ("Rate limited: " ++ url) url None))
    /\ (st = 403 -> r = Failure (IPBlockError ("IP blocked: " ++ url) url None))
    /\ (400 <= st -> st <> 429 -> st <> 403 ->
        r = Failure (NetworkError
                       ("HTTP error " ++ numberToString st ++ ": " ++ url) url None))
    /\ (st < 400 ->
        r = contentExit url (timeoutOrDefault timeoutArg) (browserScript b)
        /\ forall e, r = Failure e -> isStatusFailure e = false)
    /\ (400 <= st -> count isContent evs = 0%nat)
    /\ (st < 400 -> count isContent evs = 1%nat).
Proof.
  intros Hacq Hgoto.
  destruct (@navigate_with_response b url proxyConfig timeoutArg w st Hacq Hgoto)
    as (w' & evs & Hrun & Htrace & Hcontent).
  eexists; exists w', evs. split; [exact Hrun|]. split; [exact Htrace|].
  repeat split.
  - intros ->. reflexivity.
  - intros ->. reflexivity.
  - intros Hge H429 H403.
    destruct (st =? 429) eqn:E1; [apply Z.eqb_eq in E1; contradiction|].
    destruct (st =? 403) eqn:E2; [apply Z.eqb_eq in E2; contradiction|].
    destruct (st >=? 400) eqn:E3; [reflexivity|]. rewrite Z.geb_leb in E3.
    apply Z.leb_gt in E3. lia.
  - destruct (st =? 429) eqn:E1; [apply Z.eqb_eq in E1; lia|].
    destruct (st =? 403) eqn:E2; [apply Z.eqb_eq in E2; lia|].
    destruct (st >=? 400) eqn:E3; [|reflexivity]. rewrite Z.geb_leb in E3.
    apply Z.leb_le in E3. lia.
  - intros e He.
    destruct (st =? 429) eqn:E1; [apply Z.eqb_eq in E1; lia|].
    destruct (st =? 403) eqn:E2; [apply Z.eqb_eq in E2; lia|].
    destruct (st >=? 400) eqn:E3;
      [rewrite Z.geb_leb in E3; apply Z.leb_le in E3; lia|].
    revert He. apply contentExit_not_status.
  - intros Hge. rewrite Hcontent.
    destruct (st >=? 400) eqn:E3; [reflexivity|]. rewrite Z.geb_leb in E3.
    apply Z.leb_gt in E3. lia.
  - intros Hlt. rewrite Hcontent.
    destruct (st >=? 400) eqn:E3; [|reflexivity]. rewrite Z.geb_leb in E3.
    apply Z.leb_le in E3. lia.
Qed.

Lemma C5_status_classification_witness :
  exists r w' evs,
    navigatePageAndGetContent {| browserId := 0; browserScript := rateLimitedScript |}
      "https://example.org/" None (Some 30000) (freshWorld (fun _ => rateLimitedScript))
    = Some (r, w')
    /\ trace w' = trace (freshWorld (fun _ => rateLimitedScript)) ++ evs
    /\ (429 = 429 ->
        r = Failure (RateLimitError ("Rate limited: " ++ "https://example.org/")
                       "https://example.org/" None))
    /\ (429 = 403 ->
        r = Failure (IPBlockError ("IP blocked: " ++ "https://example.org/")
                       "https://example.org/" None))
    /\ (400 <= 429 -> 429 <> 429 -> 429 <> 403 ->
        r = Failure (NetworkError
                       ("HTTP error " ++ numberToString 429 ++ ": " ++ "https://example.org/")
                       "https://example.org/" None))
    /\ (429 < 400 ->
        r = contentExit "https://example.org/" (timeoutOrDefault (Some 30000))
              (browserScript {| browserId := 0; browserScript := rateLimitedScript |})
        /\ forall e, r = Failure e -> isStatusFailure e = false)
    /\ (400 <= 429 -> count isContent evs = 0%nat)
    /\ (429 < 400 -> count isContent evs = 1%nat).
Proof.
  apply (@C5_status_classification
           {| browserId := 0; browserScript := rateLimitedScript |}
           "https://example.org/" None (Some 30000)
           (freshWorld (fun _ => rateLimitedScript)) 429);
    reflexivity.
Defined.

(** C9: when the page is acquired and [page.goto] resolves with no response
    object, no status is classified: the content is read, the exit is the
    exit of reading it (the rendered content as a success when
    [page.content] resolves) and never a failure of the status check. *)
Theorem C9_null_response_skips_classification (b : Browser) (url : string)
  (proxyConfig : option ProxyConfig) (timeoutArg : option Z) (w : World) :
  pageAcquired proxyConfig (browserScript b) = true ->
  goto_result (browserScript b) = inr None ->
  exists r w' evs,
    navigatePageAndGetContent b url proxyConfig timeoutArg w = Some (r, w')
    /\ trace w' = trace w ++ evs
    /\ count isContent evs = 1%nat
    /\ (forall html, content_result (browserScript b) = inr html -> r = Success html)
    /\ (forall e, r = Failure e -> isStatusFailure e = false).
Proof.
  intros Hacq Hgoto.
  destruct (@navigate_without_response b url proxyConfig timeoutArg w Hacq Hgoto)
    as (w' & evs & Hrun & Htrace & Hcontent).
  eexists; exists w', evs. split; [exact Hrun|]. split; [exact Htrace|].
  split; [exact Hcontent|]. split.
  - intros html Hc. unfold contentExit. rewrite Hc. reflexivity.
  - intros e. apply contentExit_not_status.
Qed.

Lemma C9_null_response_skips_classification_witness :
  exists r w' evs,
    navigatePageAndGetContent {| browserId := 0; browserScript := noResponseScript |}
      "https://example.org/" None None (freshWorld (fun _ => noResponseScript))
    = Some (r, w')
    /\ trace w' = trace (freshWorld (fun _ => noResponseScript)) ++ evs
    /\ count isContent evs = 1%nat
    /\ (forall html,
          content_result
            (browserScript {| browserId := 0; browserScript := noResponseScript |})
          = inr html -> r = Success html)
    /\ (forall e, r = Failure e -> isStatusFailure e = false).
Proof.
  apply (@C9_null_response_skips_classification
           {| browserId := 0; browserScript := noResponseScript |}
           "https://example.org/" None None (freshWorld (fun _ => noResponseScript)));
    reflexivity.
Defined.

(** ** The browser lifecycle *)

Lemma navigateCatch_retryable (url : string) (timeout : Z) (error : Thrown) :
  isRetryableError (navigateCatch url timeout error) = true.
Proof.
  unfold navigateCatch.
  destruct error as [[]|[m|r]]; cbn [instanceofError errorMessage];
    try reflexivity;
    match goal with |- context [includes ?a ?b] => destruct (includes a b) end;
    reflexivity.
Qed.

Ltac script_cbn :=
  cbn [browserScript browserId pageScript pageId newPage_result authenticate_result
       goto_result content_result pageClose_result browserClose_result launch_result
       status trace log fst snd browsers launched invoked andb
       NODE_TLS_REJECT_UNAUTHORIZED].

Ltac script_cases :=
  repeat (script_cbn;
          match goal with
          | |- context [match ?x with _ => _ end] => is_var x; destruct x
          | |- context [if ?c then _ else _] => destruct c eqn:?
          end).

Ltac suffix_witness :=
  match goal with
  | |- exists pre, ?evs = pre ++ [_] => exists (removelast evs)
  | |- exists pre, ?evs = pre ++ [_; _] => exists (removelast (removelast evs))
  end; reflexivity.

Lemma Failure_inj {A E} (e1 e2 : E) :
  @Failure A E e1 = Failure e2 -> e1 = e2.
Proof. intros [= H]. exact H. Qed.

Ltac retryable_exit :=
  let e := fresh "e" in
  let H := fresh "H" in
  intros e H;
  first [ discriminate H
        | apply Failure_inj in H; rewrite <- H;
          first [apply navigateCatch_retryable | reflexivity] ].

(** Every run of [scrapeUrl], at every point where a call may fail: what is
    launched, what is closed and in which order, and what the close calls
    cannot change. *)
Lemma scrapeUrl_lifecycle (env : ProcessEnv) (url : string)
  (options : option (option Z)) (w : World) :
  let n := launched w in
  let s := browsers w n in
  let proxyConfig := buildProxyConfig (BRIGHT_DATA_CONFIG env) in
  exists r w' evs,
    scrapeUrl env url options w = Some (r, w')
    /\ trace w' = trace w ++ evs
    /\ (exists rest, evs = EvLaunch n (launchOptionsFor proxyConfig) :: rest)
    /\ count isLaunch evs = 1%nat
    /\ count isRateLimitSleep evs = 0%nat
    /\ count isBrowserClose evs = (if browserAcquired s then 1 else 0)%nat
    /\ count isPageClose evs =
       (if browserAcquired s && pageAcquired proxyConfig s then 1 else 0)%nat
    /\ (browserAcquired s = true -> exists pre, evs = pre ++ [EvBrowserClose n])
    /\ (browserAcquired s && pageAcquired proxyConfig s = true ->
        exists pre, evs = pre ++ [EvPageClose n; EvBrowserClose n])
    /\ (forall e, r = Failure e -> isRetryableError e = true)
    /\ (forall pc bc, exists w'',
          scrapeUrl env url options (withCloseResults pc bc w) = Some (r, w'')
          /\ trace w'' = trace w').
Proof.
  intros n s proxyConfig; subst n s proxyConfig.
  unfold scrapeUrl.
  set (timeout := orDefault _ 10000).
  destruct (buildProxyConfig (BRIGHT_DATA_CONFIG env)) as [pcfg|];
  destruct (browsers w (launched w)) as [lr np au gt ct pc bc] eqn:Hs;
  unfold browserAcquired, pageAcquired;
  cbn [launch_result newPage_result authenticate_result].
  all: lifecycle_unfold; rewrite ?Hs; script_cases.
  all: do 3 eexists; (split; [reflexivity|]); (split; [close_trace|]).
  all: split; [eexists; reflexivity|].
  all: split; [reflexivity|].
  all: split; [reflexivity|].
  all: split; [reflexivity|].
  all: split; [reflexivity|].
  all: split; [intros H; try discriminate H; suffix_witness|].
  all: split; [intros H; try discriminate H; suffix_witness|].
  all: split; [retryable_exit|].
  all: intros pc0 bc0; eexists; rewrite ?Hs; script_cases; split; reflexivity.
Qed.

(** X17: in every run of [scrapeUrl], whatever fails and wherever, the
    browser is closed exactly once if [puppeteer.launch] resolved, and
    [page.close] is called exactly once if the acquire step of the page
    lifecycle completed ([newPage] resolved and, behind the proxy,
    [authenticate] too); the page is then closed before the browser (the two
    closes end the run, in that order); and what the close calls answer,
    failures included, changes neither the exit nor the trace. *)
Theorem completed_acquisitions_are_released_once_in_reverse_order
  (env : ProcessEnv) (url : string) (options : option (option Z)) (w : World) :
  let n := launched w in
  let s := browsers w n in
  let proxyConfig := buildProxyConfig (BRIGHT_DATA_CONFIG env) in
  exists r w' evs,
    scrapeUrl env url options w = Some (r, w')
    /\ trace w' = trace w ++ evs
    /\ count isBrowserClose evs = (if browserAcquired s then 1 else 0)%nat
    /\ count isPageClose evs =
       (if browserAcquired s && pageAcquired proxyConfig s then 1 else 0)%nat
    /\ (browserAcquired s = true -> exists pre, evs = pre ++ [EvBrowserClose n])
    /\ (browserAcquired s && pageAcquired proxyConfig s = true ->
        exists pre, evs = pre ++ [EvPageClose n; EvBrowserClose n])
    /\ (forall pc bc, exists w'',
          scrapeUrl env url options (withCloseResults pc bc w) = Some (r, w'')
          /\ trace w'' = trace w').
Proof.
  intros n s proxyConfig.
  destruct (scrapeUrl_lifecycle env url options w)
    as (r & w' & evs & Hrun & Htr & _ & _ & _ & Hbc & Hpc & Hlast & Hrev & _ & Hmask).
  exists r, w', evs. repeat split; assumption.
Qed.

(** ** The composed pipeline *)

Lemma withSimpleRateLimit_run {A E} (effect : Effect A E) (w : World) :
  withSimpleRateLimit effect w = effect (log (EvSleep 100) w).
Proof. reflexivity. Qed.

(** The fetch stage of [scrapeWithRetry] is one rate-limited run of the
    session: a success ends the retry wrapper, and every failure of
    [scrapeUrl] is of a kind that ends it too. *)
Lemma fetch_stage_run (env : ProcessEnv) (url : string) (options : option (option Z))
  (w : World) :
  exists r w' rest,
    retryIfRetryable (withSimpleRateLimit (scrapeUrl env url options)) w = Some (r, w')
    /\ trace w' =
       trace w ++ EvSleep 100
         :: EvLaunch (launched w)
              (launchOptionsFor (buildProxyConfig (BRIGHT_DATA_CONFIG env)))
         :: rest
    /\ count isLaunch rest = 0%nat
    /\ count isRateLimitSleep rest = 0%nat
    /\ (forall e, r = Failure e -> isRetryableError e = true).
Proof.
  destruct (scrapeUrl_lifecycle env url options (log (EvSleep 100) w))
    as (r & w' & evs & Hrun & Htr & [rest ->] & Hl & Hs & _ & _ & _ & _ & Hret & _).
  exists r, w', rest. split; [|split; [|split; [|split; [|exact Hret]]]].
  - destruct r as [html|e].
    + apply retryIfRetryable_success. rewrite withSimpleRateLimit_run. exact Hrun.
    + apply retryIfRetryable_stops_on_retryable.
      * apply Hret. reflexivity.
      * rewrite withSimpleRateLimit_run. exact Hrun.
  - rewrite Htr. cbn [trace log launched]. rewrite <- app_assoc. reflexivity.
  - unfold count in *. cbn in Hl. injection Hl as Hl. exact Hl.
  - exact Hs.
Qed.


(** The fetch stage is the session run once after the delay of the rate
    limiter. *)
Lemma fetch_stage_is_one_session (env : ProcessEnv) (url : string)
  (options : option (option Z)) (w : World) :
  retryIfRetryable (withSimpleRateLimit (scrapeUrl env url options)) w =
  scrapeUrl env url options (log (EvSleep 100) w).
Proof.
  destruct (scrapeUrl_lifecycle env url options (log (EvSleep 100) w))
    as (r & w' & evs & Hrun & _ & _ & _ & _ & _ & _ & _ & _ & Hret & _).
  rewrite Hrun. destruct r as [html|e].
  - apply retryIfRetryable_success. rewrite withSimpleRateLimit_run. exact Hrun.
  - apply retryIfRetryable_stops_on_retryable; [apply Hret; reflexivity|].
    rewrite withSimpleRateLimit_run. exact Hrun.
Qed.

Lemma scrapeWithRetry_after_fetch (cheerio_load : string -> Thrown + Document)
  (cheerio_throws : CheerioCall -> option Thrown)
  (env : ProcessEnv) (w : World) (r : Exit string ScrapingError) (w1 : World) :
  retryIfRetryable
    (withSimpleRateLimit (scrapeUrl env TARGET_URL (Some (Some 30000)))) w
  = Some (r, w1) ->
  scrapeWithRetry cheerio_load cheerio_throws env w =
  match r with
  | Success html => parseHtml cheerio_load cheerio_throws html w1
  | Failure e => Some (Failure e, w1)
  end.
Proof.
  intros Hfetch. unfold scrapeWithRetry, Effect_flatMap. rewrite Hfetch.
  destruct r; reflexivity.
Qed.

Lemma parseHtml_world (cheerio_load : string -> Thrown + Document)
  (cheerio_throws : CheerioCall -> option Thrown) (html : string) (w : World) :
  exists r, parseHtml cheerio_load cheerio_throws html w = Some (r, w).
Proof.
  unfold parseHtml, Effect_try.
  destruct (parseHtmlTry cheerio_load cheerio_throws html); eexists; reflexivity.
Qed.

(** Whatever is thrown inside the [try] of [parseHtml] comes out as a
    ParseError with that value as its cause, in an unchanged world. *)
Lemma parseHtml_failure (cheerio_load : string -> Thrown + Document)
  (cheerio_throws : CheerioCall -> option Thrown) (html : string) (w w' : World)
  (e : ScrapingError) :
  parseHtml cheerio_load cheerio_throws html w = Some (Failure e, w') ->
  w' = w
  /\ exists thrown,
       parseHtmlTry cheerio_load cheerio_throws html = inl thrown
       /\ e = ParseError "Failed to parse HTML" (Some thrown).
Proof.
  unfold parseHtml, Effect_try.
  destruct (parseHtmlTry cheerio_load cheerio_throws html) as [thrown|record];
    intros [= <- <-].
  split; [reflexivity|]. exists thrown. split; reflexivity.
Qed.

(** On an operation that is retried the two orders of the wrappers differ:
    with the rate limiter inside the retry the 100 ms delay comes before
    every run, with the rate limiter outside it comes once.  (The session of
    the pipeline is never retried, see [fetch_stage_is_one_session], which is
    why the pipeline agrees with both.) *)
Lemma wrapper_orders_differ_on_a_retried_operation :
  outcome (retryIfRetryable (withSimpleRateLimit (scripted failsOnceThenSucceeds))
             (freshWorld (fun _ => idleScript)))
  = Some (Success "<h1>ok</h1>",
          [EvSleep 100; EvInvoke 0; EvSleep 1000; EvSleep 100; EvInvoke 1])
  /\ outcome (withSimpleRateLimit (retryIfRetryable (scripted failsOnceThenSucceeds))
                (freshWorld (fun _ => idleScript)))
     = Some (Success "<h1>ok</h1>",
             [EvSleep 100; EvInvoke 0; EvSleep 1000; EvInvoke 1]).
Proof. split; vm_compute; reflexivity. Qed.


(** C6: in the pipeline a ParseError never triggers a retry.  Extraction is
    outside the retry wrapper: when the fetch stage has succeeded and
    extraction fails, the pipeline ends with that failure, a ParseError, in
    the very world the fetch stage left, so nothing is fetched again and
    nothing sleeps, whatever recurrences the policy has left.  And the
    fetch stage itself never fails with a ParseError. *)
Theorem C6_parse_failure_is_not_retried :
  (forall (cheerio_load : string -> Thrown + Document)
          (cheerio_throws : CheerioCall -> option Thrown) (env : ProcessEnv)
          (w w1 w2 : World) (html : string) (e : ScrapingError),
     retryIfRetryable
       (withSimpleRateLimit (scrapeUrl env TARGET_URL (Some (Some 30000)))) w
     = Some (Success html, w1) ->
     parseHtml cheerio_load cheerio_throws html w1 = Some (Failure e, w2) ->
     scrapeWithRetry cheerio_load cheerio_throws env w = Some (Failure e, w1)
     /\ w2 = w1
     /\ _tag e = "ParseError")
  /\ (forall (env : ProcessEnv) (w w1 : World) (e : ScrapingError),
        retryIfRetryable
          (withSimpleRateLimit (scrapeUrl env TARGET_URL (Some (Some 30000)))) w
        = Some (Failure e, w1) ->
        _tag e <> "ParseError").
Proof.
  split.
  - intros cheerio_load cheerio_throws env w w1 w2 html e Hfetch Hparse.
    rewrite (@scrapeWithRetry_after_fetch cheerio_load cheerio_throws env w _ w1 Hfetch).
    destruct (parseHtml_failure cheerio_load cheerio_throws html w1 Hparse)
      as (-> & thrown & _ & ->).
    split; [exact Hparse|split; reflexivity].
  - intros env w w1 e Hfetch.
    destruct (fetch_stage_run env TARGET_URL (Some (Some 30000)) w)
      as (r & w' & rest & Hrun & _ & _ & _ & Hret).
    rewrite Hfetch in Hrun. injection Hrun as <- _.
    specialize (Hret e eq_refl). rewrite isRetryableError_tag in Hret.
    intros Htag. rewrite Htag in Hret. discriminate Hret.
Qed.

Lemma C6_parse_failure_is_not_retried_witness :
  scrapeWithRetry throwingLoad neverThrows noProxyEnv
    (freshWorld (fun _ => servingScript "<h1>Quotes"))
  = Some (Failure (ParseError "Failed to parse HTML"
                     (Some (ThrownForeign (JsErrorObject "parser crashed")))),
          afterOneFetch "<h1>Quotes")
  /\ afterOneFetch "<h1>Quotes" = afterOneFetch "<h1>Quotes"
  /\ _tag (ParseError "Failed to parse HTML"
             (Some (ThrownForeign (JsErrorObject "parser crashed")))) = "ParseError".
Proof.
  apply (proj1 C6_parse_failure_is_not_retried throwingLoad neverThrows noProxyEnv
           (freshWorld (fun _ => servingScript "<h1>Quotes"))
           (afterOneFetch "<h1>Quotes") (afterOneFetch "<h1>Quotes") "<h1>Quotes").
  - reflexivity.
  - reflexivity.
Defined.

(** ** Extraction *)

Lemma nonEmpty_length (s : string) :
  (0 <? String.length s)%nat = negb (String.eqb s "").
Proof. destruct s; reflexivity. Qed.

(** When the visit of the span elements returns, it returns the trimmed text
    of each, in order. *)
Lemma mapTrimmedText_returned (cheerio_throws : CheerioCall -> option Thrown)
  (elements : list Node) (texts : list string) :
  mapTrimmedText cheerio_throws elements = inr texts ->
  texts = map (fun el => trim (nodeText el)) elements.
Proof.
  revert texts; induction elements as [|el rest IH]; intros texts; cbn [mapTrimmedText].
  - intros [= <-]. reflexivity.
  - unfold cheerio_text. destruct (cheerio_throws (CallText [el])); [discriminate|].
    destruct (mapTrimmedText cheerio_throws rest) as [thrown|ts]; [discriminate|].
    intros [= <-]. cbn [map]. rewrite (IH ts eq_refl). reflexivity.
Qed.

Lemma mapTrimmedText_returns (cheerio_throws : CheerioCall -> option Thrown)
  (elements : list Node) :
  (forall el, In el elements -> cheerio_throws (CallText [el]) = None) ->
  mapTrimmedText cheerio_throws elements
  = inr (map (fun el => trim (nodeText el)) elements).
Proof.
  induction elements as [|el rest IH]; intros Hquiet; cbn [mapTrimmedText map].
  - reflexivity.
  - unfold cheerio_text. rewrite (Hquiet el (or_introl eq_refl)).
    rewrite IH by (intros el' Hin; apply Hquiet; right; exact Hin).
    reflexivity.
Qed.

(** A record that [parseHtml] returns is the one read off the document the
    parser returned: the title is the trimmed text of the [h1] selection,
    the spans are the non-empty trimmed texts of the [span] elements in
    document order. *)
Lemma parseHtml_success (cheerio_load : string -> Thrown + Document)
  (cheerio_throws : CheerioCall -> option Thrown) (html : string) (w w' : World)
  (r : ScrapingResult) :
  parseHtml cheerio_load cheerio_throws html w = Some (Success r, w') ->
  w' = w
  /\ exists doc,
       cheerio_load html = inr doc
       /\ r = {| title := trim (selectionText (select "h1" doc));
                 spans := filter (fun s => negb (String.eqb s ""))
                            (map (fun el => trim (nodeText el)) (select "span" doc));
                 url := TARGET_URL |}.
Proof.
  unfold parseHtml, Effect_try, parseHtmlTry, cheerio_select, cheerio_text.
  destruct (cheerio_load html) as [thrown|doc]; [discriminate|].
  destruct (cheerio_throws (CallSelect "h1" doc)); [discriminate|].
  destruct (cheerio_throws (CallText (select "h1" doc))); [discriminate|].
  destruct (cheerio_throws (CallSelect "span" doc)); [discriminate|].
  destruct (mapTrimmedText cheerio_throws (select "span" doc)) as [thrown|texts] eqn:Ht;
    [discriminate|].
  intros [= <- <-]. split; [reflexivity|]. exists doc. split; [reflexivity|].
  apply mapTrimmedText_returned in Ht. subst texts. f_equal.
  apply filter_ext. intros s. apply nonEmpty_length.
Qed.

(** When the parser returns a document and the library calls on it return,
    extraction succeeds. *)
Lemma parseHtml_document (cheerio_load : string -> Thrown + Document)
  (cheerio_throws : CheerioCall -> option Thrown)
  (html : string) (doc : Document) (w : World) :
  cheerio_load html = inr doc ->
  extractionCallsReturn cheerio_throws doc ->
  parseHtml cheerio_load cheerio_throws html w =
  Some (Success
          {| title := trim (selectionText (select "h1" doc));
             spans := filter (fun s => negb (String.eqb s ""))
                        (map (fun el => trim (nodeText el)) (select "span" doc));
             url := TARGET_URL |}, w).
Proof.
  intros Hload (Hh & Hht & Hs & Hst).
  unfold parseHtml, Effect_try, parseHtmlTry, cheerio_select, cheerio_text.
  rewrite Hload, Hh, Hht, Hs, (mapTrimmedText_returns cheerio_throws _ Hst).
  do 3 f_equal. f_equal. apply filter_ext. intros s. apply nonEmpty_length.
Qed.

Lemma parseHtml_success_url (cheerio_load : string -> Thrown + Document)
  (cheerio_throws : CheerioCall -> option Thrown)
  (html : string) (w w' : World) (r : ScrapingResult) :
  parseHtml cheerio_load cheerio_throws html w = Some (Success r, w') ->
  url r = TARGET_URL.
Proof.
  intros Hparse. apply parseHtml_success in Hparse.
  destruct Hparse as (_ & doc & _ & ->). reflexivity.
Qed.

Lemma neverThrows_returns (doc : Document) : extractionCallsReturn neverThrows doc.
Proof. repeat split. Qed.

(** C7, as the claim words it, fails: content without any heading element
    is extracted with success and an empty title; the pipeline does not end
    with a ParseError. *)
Lemma C7_no_heading_is_a_success_with_empty_title :
  select "h1" noHeadingDocument = []
  /\ outcome (scrapeWithRetry noHeadingLoad neverThrows noProxyEnv
                (freshWorld (fun _ => servingScript noHeadingHtml)))
     = Some (Success {| title := ""; spans := ["text"]; url := TARGET_URL |},
             [EvSleep 100; EvLaunch 0 (launchOptionsFor None); EvNewPage 0;
              EvGoto 0 TARGET_URL "networkidle2" 30000; EvContent 0;
              EvPageClose 0; EvBrowserClose 0]).
Proof. split; vm_compute; reflexivity. Qed.

(** C7, amended: when the content that reaches extraction parses to a
    document without heading element, the missing heading is no failure:
    the pipeline ends in the world the fetch stage left (nothing is
    retried), with the exit of extraction; every record it succeeds with
    has the empty string as title, and it does succeed, with that title and
    the spans and url of any document, when the library calls of
    extraction return. *)
Theorem C7_no_heading_gives_empty_title
  (cheerio_load : string -> Thrown + Document)
  (cheerio_throws : CheerioCall -> option Thrown) (env : ProcessEnv)
  (w w1 : World) (html : string) (doc : Document) :
  retryIfRetryable
    (withSimpleRateLimit (scrapeUrl env TARGET_URL (Some (Some 30000)))) w
  = Some (Success html, w1) ->
  cheerio_load html = inr doc ->
  select "h1" doc = [] ->
  exists r,
    scrapeWithRetry cheerio_load cheerio_throws env w = Some (r, w1)
    /\ parseHtml cheerio_load cheerio_throws html w1 = Some (r, w1)
    /\ (forall record, r = Success record ->
        title record = "" /\ url record = TARGET_URL)
    /\ (extractionCallsReturn cheerio_throws doc ->
        r = Success
              {| title := "";
                 spans := filter (fun s => negb (String.eqb s ""))
                            (map (fun el => trim (nodeText el)) (select "span" doc));
                 url := TARGET_URL |}).
Proof.
  intros Hfetch Hload Hnone.
  destruct (parseHtml_world cheerio_load cheerio_throws html w1) as [r Hr].
  exists r. rewrite (@scrapeWithRetry_after_fetch cheerio_load cheerio_throws env w _ w1 Hfetch).
  split; [exact Hr|]. split; [exact Hr|]. split.
  - intros record ->. apply parseHtml_success in Hr.
    destruct Hr as (_ & doc' & Hload' & ->). rewrite Hload in Hload'.
    injection Hload' as <-. cbn [title url]. rewrite Hnone. split; reflexivity.
  - intros Hquiet.
    rewrite (parseHtml_document cheerio_load html w1 Hload Hquiet) in Hr.
    injection Hr as <-. rewrite Hnone. reflexivity.
Qed.

Lemma C7_no_heading_gives_empty_title_witness :
  exists r,
    scrapeWithRetry noHeadingLoad neverThrows noProxyEnv
      (freshWorld (fun _ => servingScript noHeadingHtml))
    = Some (r, afterOneFetch noHeadingHtml)
    /\ parseHtml noHeadingLoad neverThrows noHeadingHtml (afterOneFetch noHeadingHtml)
       = Some (r, afterOneFetch noHeadingHtml)
    /\ (forall record, r = Success record ->
        title record = "" /\ url record = TARGET_URL)
    /\ (extractionCallsReturn neverThrows noHeadingDocument ->
        r = Success
              {| title := "";
                 spans := filter (fun s => negb (String.eqb s ""))
                            (map (fun el => trim (nodeText el))
                               (select "span" noHeadingDocument));
                 url := TARGET_URL |}).
Proof.
  apply (@C7_no_heading_gives_empty_title noHeadingLoad neverThrows noProxyEnv
           (freshWorld (fun _ => servingScript noHeadingHtml))
           (afterOneFetch noHeadingHtml) noHeadingHtml noHeadingDocument);
    reflexivity.
Defined.





(** C10: whatever the html, a record returned by [parseHtml] carries the
    constant [TARGET_URL], 'https://quotes.toscrape.com/js/', in its url
    field: [parseHtml] takes no url and the field does not depend on the
    content. *)
Theorem C10_url_is_TARGET_URL (cheerio_load : string -> Thrown + Document)
  (cheerio_throws : CheerioCall -> option Thrown)
  (html : string) (w w' : World) (r : ScrapingResult) :
  parseHtml cheerio_load cheerio_throws html w = Some (Success r, w') ->
  url r = TARGET_URL /\ url r = "https://quotes.toscrape.com/js/".
Proof.
  intros Hparse.
  split; exact (parseHtml_success_url cheerio_load cheerio_throws html w Hparse).
Qed.

Lemma C10_url_is_TARGET_URL_witness :
  url {| title := "Quotes to Scrape"; spans := ["first"; "second"; "third"];
         url := TARGET_URL |} = TARGET_URL
  /\ url {| title := "Quotes to Scrape"; spans := ["first"; "second"; "third"];
            url := TARGET_URL |} = "https://quotes.toscrape.com/js/".
Proof.
  apply (@C10_url_is_TARGET_URL quotesLoad neverThrows quotesHtml
           (freshWorld (fun _ => idleScript)) (freshWorld (fun _ => idleScript))).
  reflexivity.
Defined.

(** ** Failures of extraction *)

Lemma mapTrimmedText_returned_quiet (cheerio_throws : CheerioCall -> option Thrown)
  (elements : list Node) (texts : list string) :
  mapTrimmedText cheerio_throws elements = inr texts ->
  forall el, In el elements -> cheerio_throws (CallText [el]) = None.
Proof.
  revert texts; induction elements as [|x rest IH]; intros texts; cbn [mapTrimmedText In].
  - intros _ el [].
  - unfold cheerio_text. destruct (cheerio_throws (CallText [x])) eqn:Hx; [discriminate|].
    destruct (mapTrimmedText cheerio_throws rest) as [thrown|ts]; [discriminate|].
    intros _ el [<-|Hin]; [exact Hx|exact (IH ts eq_refl el Hin)].
Qed.

(** X18: [parseHtml] always returns, in the world it started in.  It fails
    only with the ParseError 'Failed to parse HTML', whose cause is the value
    thrown inside its [try]: the one the parser threw when the parser
    throws, and when the parser returned a document it succeeds exactly when
    each library call on that document returns (selecting the headings and
    reading their text, selecting the spans and reading the text of each):
    a throw of [.text()] on a loaded document is a ParseError as well. *)
Theorem parseHtml_fails_exactly_when_a_call_throws
  (cheerio_load : string -> Thrown + Document)
  (cheerio_throws : CheerioCall -> option Thrown) (html : string) (w : World) :
  exists r,
    parseHtml cheerio_load cheerio_throws html w = Some (r, w)
    /\ (forall e, r = Failure e ->
        exists thrown, e = ParseError "Failed to parse HTML" (Some thrown))
    /\ (forall thrown, cheerio_load html = inl thrown ->
        r = Failure (ParseError "Failed to parse HTML" (Some thrown)))
    /\ (forall doc, cheerio_load html = inr doc ->
        ((exists record, r = Success record)
         <-> extractionCallsReturn cheerio_throws doc)).
Proof.
  destruct (parseHtml_world cheerio_load cheerio_throws html w) as [r Hr].
  exists r. split; [exact Hr|]. split; [|split].
  - intros e ->. destruct (parseHtml_failure cheerio_load cheerio_throws html w Hr)
      as (_ & thrown & _ & ->).
    exists thrown. reflexivity.
  - intros thrown Hload. revert Hr. unfold parseHtml, Effect_try, parseHtmlTry.
    rewrite Hload. intros [= <-]. reflexivity.
  - intros doc Hload. split.
    + intros [record ->]. revert Hr.
      unfold parseHtml, Effect_try, parseHtmlTry, cheerio_select, cheerio_text.
      rewrite Hload. unfold extractionCallsReturn.
      destruct (cheerio_throws (CallSelect "h1" doc)); [discriminate|].
      destruct (cheerio_throws (CallText (select "h1" doc))); [discriminate|].
      destruct (cheerio_throws (CallSelect "span" doc)); [discriminate|].
      destruct (mapTrimmedText cheerio_throws (select "span" doc)) as [thrown|texts] eqn:Ht;
        [discriminate|].
      intros _. split; [reflexivity|]. split; [reflexivity|]. split; [reflexivity|].
      exact (mapTrimmedText_returned_quiet cheerio_throws _ Ht).
    + intros Hquiet.
      rewrite (parseHtml_document cheerio_load html w Hload Hquiet) in Hr.
      injection Hr as <-. eexists. reflexivity.
Qed.

(** The text of a heading cannot be read: the document is loaded and the
    extraction is a ParseError all the same. *)
Example parseHtml_text_overflow :
  quotesLoad quotesHtml = inr quotesDocument
  /\ parseHtml quotesLoad textOverflows quotesHtml (freshWorld (fun _ => idleScript))
     = Some (Failure
               (ParseError "Failed to parse HTML"
                  (Some (ThrownForeign
                           (JsErrorObject "Maximum call stack size exceeded")))),
             freshWorld (fun _ => idleScript)).
Proof. split; reflexivity. Qed.

(** ** Further facts *)

(** The fuel of [retryIfRetryable] is never what stops it: any greater fuel
    gives the same run, and over a total operation the wrapper is total. *)
Lemma retryIfRetryable_fuel_irrelevant {A} (operation : Effect A ScrapingError)
  (extra : nat) (w : World) :
  Effect_retry (retryFuel + extra) operation
    {| schedule := retryPolicy; until := fun error => isRetryableError error |} w
  = retryIfRetryable operation w.
Proof.
  unfold retryIfRetryable, Effect_retry; cbn [schedule until].
  apply (@retryLoop_fuel_enough A operation extra retryFuel O O w).
  unfold retryFuel; lia.
Qed.

Lemma retryIfRetryable_total {A} (operation : Effect A ScrapingError) :
  (forall w, operation w <> None) ->
  forall w, retryIfRetryable operation w <> None.
Proof.
  intros Htot w. rewrite retryIfRetryable_unfold.
  apply retryLoop_total; [exact Htot|lia].
Qed.

(** The other half of the [until] option: a failure that is not of a
    retryable kind is what the wrapper retries.  An operation that always
    fails with a ParseError is run four times. *)
Lemma retryIfRetryable_retries_parse_errors (w : World) (cause : option Thrown) :
  exists w',
    retryIfRetryable
      (scripted (fun _ => Failure (ParseError "Failed to parse HTML" cause)
                          : Exit string ScrapingError)) w
    = Some (Failure (ParseError "Failed to parse HTML" cause), w')
    /\ trace w' = trace w ++ attemptsTrace (invoked w).
Proof.
  rewrite retryIfRetryable_unfold.
  do 4 (rewrite retryLoop_policy; unfold scripted at 1; cbn [invoked log andb negb
          isRetryableError _tag existsb retryableErrors String.eqb Ascii.eqb Bool.eqb
          orb Nat.ltb Nat.leb]).
  eexists. split; [reflexivity|]. cbn [trace log]. rewrite <- !app_assoc. reflexivity.
Qed.

(** The pipeline on a browser that is rate limited once: the RateLimited
    failure of the first attempt is the result; no second browser is
    launched. *)
Lemma scrapeWithRetry_rate_limited_once :
  outcome (scrapeWithRetry quotesLoad neverThrows noProxyEnv (freshWorld rateLimitedOnce))
  = Some (Failure (RateLimitError ("Rate limited: " ++ TARGET_URL)%string TARGET_URL None),
          [EvSleep 100; EvLaunch 0 (launchOptionsFor None); EvNewPage 0;
           EvGoto 0 TARGET_URL "networkidle2" 30000;
           EvPageClose 0; EvBrowserClose 0]).
Proof. vm_compute. reflexivity. Qed.

(** Behind a proxy, a page that is created but fails to authenticate is not
    an acquired page: [page.close] is not called for it, the browser is
    closed and takes the page with it. *)
Lemma unauthenticated_page_is_left_to_browser_close :
  pageAcquired (buildProxyConfig (BRIGHT_DATA_CONFIG proxyEnv)) authFailsScript = false
  /\ outcome (scrapeUrl proxyEnv TARGET_URL None (freshWorld (fun _ => authFailsScript)))
     = Some (Failure (BrowserError "Failed to create page or authenticate"
                        (Some (ThrownForeign (JsErrorObject "net::ERR_PROXY_AUTH")))),
             [EvLaunch 0 (launchOptionsFor (buildProxyConfig (BRIGHT_DATA_CONFIG proxyEnv)));
              EvNewPage 0; EvAuthenticate 0 "brd-customer-c_1-zone-web" "secret";
              EvBrowserClose 0]).
Proof. split; vm_compute; reflexivity. Qed.

(** X1: the proxy is used only when the three credentials are present and
    non-empty. *)
Lemma buildProxyConfig_requires_all_credentials (env : ProcessEnv) :
  buildProxyConfig (BRIGHT_DATA_CONFIG env) <> None <->
  truthy (BRIGHT_DATA_CUSTOMER_ID env) = true
  /\ truthy (BRIGHT_DATA_ZONE env) = true
  /\ truthy (BRIGHT_DATA_PASSWORD env) = true.
Proof.
  unfold buildProxyConfig, isBrightDataConfigured; cbn [customerId zone password BRIGHT_DATA_CONFIG].
  destruct (truthy (BRIGHT_DATA_CUSTOMER_ID env)), (truthy (BRIGHT_DATA_ZONE env)),
    (truthy (BRIGHT_DATA_PASSWORD env)); cbn [andb negb];
    split; try (intros H; exfalso; apply H; reflexivity);
    try (intros (? & ? & ?); discriminate); try discriminate; auto.
Qed.

(* ========================================================================= *)
(** * More of the pipeline *)

(** ** The session in closed form *)

Ltac status_facts :=
  repeat match goal with
         | H : (_ =? _) = true |- _ => apply Z.eqb_eq in H
         | H : (_ =? _) = false |- _ => apply Z.eqb_neq in H
         | H : negb _ = true |- _ => apply negb_true_iff in H
         | H : negb _ = false |- _ => apply negb_false_iff in H
         | H : (_ >=? _) = true |- _ => rewrite Z.geb_leb in H; apply Z.leb_le in H
         | H : (_ >=? _) = false |- _ => rewrite Z.geb_leb in H; apply Z.leb_gt in H
         end.

Lemma scrapeUrl_run (env : ProcessEnv) (url : string) (options : option (option Z))
  (w : World) :
  scrapeUrl env url options w =
  Some (sessionExit (buildProxyConfig (BRIGHT_DATA_CONFIG env)) url
          (requestedTimeout options) (browsers w (launched w)),
        afterSession (buildProxyConfig (BRIGHT_DATA_CONFIG env)) url
          (requestedTimeout options) w).
Proof.
  unfold scrapeUrl, afterSession, sessionExit, sessionCalls, pageCalls, navigationExit,
    pageRejection, readsContent, contentExit, pageAcquired, launchFailureMessage.
  fold (requestedTimeout options).
  set (timeout := requestedTimeout options).
  destruct (buildProxyConfig (BRIGHT_DATA_CONFIG env)) as [pcfg|];
  destruct (browsers w (launched w)) as [lr np au gt ct pc bc] eqn:Hs;
  cbn [launch_result newPage_result authenticate_result goto_result content_result].
  all: lifecycle_unfold; rewrite ?Hs; script_cases.
  all: first [ unfold log; script_cbn; cbn [negb app timeoutOrDefault];
               rewrite <- ?app_assoc; reflexivity
             | exfalso; status_facts; lia ].
Qed.

Lemma requestedTimeout_effective (options : option (option Z)) :
  Z.max (requestedTimeout options) 30000 = Z.max (givenTimeout options) 30000.
Proof.
  unfold requestedTimeout, givenTimeout, orDefault.
  destruct options as [[v|]|]; try reflexivity.
  destruct (v =? 0) eqn:E; [apply Z.eqb_eq in E; subst v|]; reflexivity.
Qed.

Lemma buildProxyConfig_some (env : ProcessEnv) (pc : ProxyConfig) :
  buildProxyConfig (BRIGHT_DATA_CONFIG env) = Some pc ->
  exists id zn pw,
    BRIGHT_DATA_CUSTOMER_ID env = Some id /\ id <> ""
    /\ BRIGHT_DATA_ZONE env = Some zn /\ zn <> ""
    /\ BRIGHT_DATA_PASSWORD env = Some pw /\ pw <> ""
    /\ pc = {| host := "brd.superproxy.io"; port := 33335;
               username := ("brd-customer-" ++ id ++ "-zone-" ++ zn)%string;
               proxyPassword := pw |}.
Proof.
  unfold buildProxyConfig, isBrightDataConfigured, BRIGHT_DATA_CONFIG;
    cbn [customerId zone password proxyHost proxyPort].
  destruct (BRIGHT_DATA_CUSTOMER_ID env) as [[|c id]|],
    (BRIGHT_DATA_ZONE env) as [[|c' zn]|],
    (BRIGHT_DATA_PASSWORD env) as [[|c'' pw]|]; cbn [truthy andb negb fromSome];
    try discriminate.
  intros [= <-]. do 3 eexists. repeat split; try reflexivity; discriminate.
Qed.

(** ** Acquisition failures *)

(** X3: when [puppeteer.launch] rejects, [scrapeUrl] fails with a
    BrowserError that carries the thrown value as its cause, with the message
    of the proxy or of the direct launch; the launch is the only call made:
    no page is opened and nothing is closed. *)
Theorem launch_failure_is_a_BrowserError (env : ProcessEnv) (url : string)
  (options : option (option Z)) (w : World) (v : JsValue) :
  launch_result (browsers w (launched w)) = Some v ->
  exists w',
    scrapeUrl env url options w =
    Some (Failure
            (BrowserError
               (if isBrightDataConfigured (BRIGHT_DATA_CONFIG env)
                then "Failed to launch browser with Bright Data proxy"
                else "Failed to launch browser")
               (Some (ThrownForeign v))), w')
    /\ trace w' =
       trace w ++ [EvLaunch (launched w)
                     (launchOptionsFor (buildProxyConfig (BRIGHT_DATA_CONFIG env)))].
Proof.
  intros Hl. rewrite scrapeUrl_run.
  exists (afterSession (buildProxyConfig (BRIGHT_DATA_CONFIG env)) url
            (requestedTimeout options) w).
  split.
  - unfold sessionExit. rewrite Hl. unfold launchFailureMessage, buildProxyConfig.
    destruct (isBrightDataConfigured (BRIGHT_DATA_CONFIG env)); reflexivity.
  - unfold afterSession, sessionCalls; cbn [trace]. rewrite Hl. reflexivity.
Qed.

Lemma launch_failure_is_a_BrowserError_witness :
  exists w',
    scrapeUrl noProxyEnv TARGET_URL None (freshWorld (fun _ => launchFailsScript)) =
    Some (Failure
            (BrowserError
               (if isBrightDataConfigured (BRIGHT_DATA_CONFIG noProxyEnv)
                then "Failed to launch browser with Bright Data proxy"
                else "Failed to launch browser")
               (Some (ThrownForeign (JsErrorObject "Failed to launch the browser process")))),
          w')
    /\ trace w' =
       trace (freshWorld (fun _ => launchFailsScript))
       ++ [EvLaunch (launched (freshWorld (fun _ => launchFailsScript)))
             (launchOptionsFor (buildProxyConfig (BRIGHT_DATA_CONFIG noProxyEnv)))].
Proof.
  apply (@launch_failure_is_a_BrowserError noProxyEnv TARGET_URL None
           (freshWorld (fun _ => launchFailsScript))).
  reflexivity.
Defined.

(** X2: when the browser is launched and the page cannot be acquired
    ([newPage] rejects, or behind a proxy [authenticate] rejects on the page
    just created), [scrapeUrl] fails with the BrowserError 'Failed to create
    page or authenticate' carrying the thrown value; nothing is navigated or
    read, [page.close] is not called (also not for a page that was created
    and failed to authenticate), and the browser is closed once, last. *)
Theorem page_acquisition_failure_skips_navigation (env : ProcessEnv) (url : string)
  (options : option (option Z)) (w : World) (v : JsValue) :
  launch_result (browsers w (launched w)) = None ->
  (newPage_result (browsers w (launched w)) = Some v
   \/ (newPage_result (browsers w (launched w)) = None
       /\ isBrightDataConfigured (BRIGHT_DATA_CONFIG env) = true
       /\ authenticate_result (browsers w (launched w)) = Some v)) ->
  exists w' evs,
    scrapeUrl env url options w =
    Some (Failure (BrowserError "Failed to create page or authenticate"
                     (Some (ThrownForeign v))), w')
    /\ trace w' = trace w ++ evs ++ [EvBrowserClose (launched w)]
    /\ count isGoto evs = 0%nat
    /\ count isContent evs = 0%nat
    /\ count isPageClose evs = 0%nat
    /\ count isBrowserClose evs = 0%nat.
Proof.
  intros Hl Hp. rewrite scrapeUrl_run.
  unfold sessionExit, afterSession, sessionCalls, pageCalls, pageRejection, pageAcquired.
  cbn [trace]. rewrite Hl.
  destruct Hp as [Hn|(Hn & Hcfg & Ha)].
  - rewrite Hn. eexists.
    exists [EvLaunch (launched w)
              (launchOptionsFor (buildProxyConfig (BRIGHT_DATA_CONFIG env)));
            EvNewPage (launched w)].
    repeat split; reflexivity.
  - rewrite Hn, Ha.
    destruct (buildProxyConfig (BRIGHT_DATA_CONFIG env)) as [pc|] eqn:Hpc.
    + eexists.
      exists [EvLaunch (launched w) (launchOptionsFor (Some pc));
              EvNewPage (launched w);
              EvAuthenticate (launched w) (username pc) (proxyPassword pc)].
      repeat split; reflexivity.
    + unfold buildProxyConfig in Hpc. rewrite Hcfg in Hpc. discriminate Hpc.
Qed.

Lemma page_acquisition_failure_skips_navigation_witness :
  exists w' evs,
    scrapeUrl proxyEnv TARGET_URL None (freshWorld (fun _ => authFailsScript)) =
    Some (Failure (BrowserError "Failed to create page or authenticate"
                     (Some (ThrownForeign (JsErrorObject "net::ERR_PROXY_AUTH")))), w')
    /\ trace w' =
       trace (freshWorld (fun _ => authFailsScript)) ++ evs
       ++ [EvBrowserClose (launched (freshWorld (fun _ => authFailsScript)))]
    /\ count isGoto evs = 0%nat
    /\ count isContent evs = 0%nat
    /\ count isPageClose evs = 0%nat
    /\ count isBrowserClose evs = 0%nat.
Proof.
  apply (@page_acquisition_failure_skips_navigation proxyEnv TARGET_URL None
           (freshWorld (fun _ => authFailsScript))).
  - reflexivity.
  - right. repeat split; reflexivity.
Defined.

(** C2: the page lifecycle does not close every page it creates.  Behind
    the proxy, when the browser is launched, [browser.newPage] resolves and
    [page.authenticate] then rejects, the run of [scrapeUrl] makes four
    calls, launch, [newPage], [authenticate] and [browser.close]: a page was
    created and [page.close] is never called for it, although the release
    step is documented as 'always close the page, even on error'.  The run
    fails with the BrowserError of the acquire step. *)
Theorem C2_created_page_is_not_closed_when_authentication_fails
  (env : ProcessEnv) (url : string) (options : option (option Z)) (w : World)
  (pc : ProxyConfig) (v : JsValue) :
  buildProxyConfig (BRIGHT_DATA_CONFIG env) = Some pc ->
  launch_result (browsers w (launched w)) = None ->
  newPage_result (browsers w (launched w)) = None ->
  authenticate_result (browsers w (launched w)) = Some v ->
  exists w',
    scrapeUrl env url options w =
    Some (Failure (BrowserError "Failed to create page or authenticate"
                     (Some (ThrownForeign v))), w')
    /\ trace w' =
       trace w
       ++ [EvLaunch (launched w) (launchOptionsFor (Some pc));
           EvNewPage (launched w);
           EvAuthenticate (launched w) (username pc) (proxyPassword pc);
           EvBrowserClose (launched w)]
    /\ count isNewPage (trace w') = S (count isNewPage (trace w))
    /\ count isPageClose (trace w') = count isPageClose (trace w)
    /\ count isBrowserClose (trace w') = S (count isBrowserClose (trace w)).
Proof.
  intros Hpc Hl Hn Ha. rewrite scrapeUrl_run, Hpc.
  unfold sessionExit, afterSession, sessionCalls, pageCalls, pageRejection, pageAcquired.
  cbn [trace]. rewrite Hl, Hn, Ha. eexists. split; [reflexivity|].
  cbn [trace app]. split; [reflexivity|].
  unfold count. rewrite !filter_app, !length_app. cbn. repeat split; lia.
Qed.

Lemma C2_created_page_is_not_closed_when_authentication_fails_witness :
  exists w',
    scrapeUrl proxyEnv TARGET_URL (Some (Some 30000))
      (freshWorld (fun _ => authFailsScript)) =
    Some (Failure (BrowserError "Failed to create page or authenticate"
                     (Some (ThrownForeign (JsErrorObject "net::ERR_PROXY_AUTH")))), w')
    /\ trace w' =
       trace (freshWorld (fun _ => authFailsScript))
       ++ [EvLaunch (launched (freshWorld (fun _ => authFailsScript)))
             (launchOptionsFor
                (Some {| host := "brd.superproxy.io"; port := 33335;
                         username := "brd-customer-c_1-zone-web";
                         proxyPassword := "secret" |}));
           EvNewPage (launched (freshWorld (fun _ => authFailsScript)));
           EvAuthenticate (launched (freshWorld (fun _ => authFailsScript)))
             (username {| host := "brd.superproxy.io"; port := 33335;
                          username := "brd-customer-c_1-zone-web";
                          proxyPassword := "secret" |})
             (proxyPassword {| host := "brd.superproxy.io"; port := 33335;
                               username := "brd-customer-c_1-zone-web";
                               proxyPassword := "secret" |});
           EvBrowserClose (launched (freshWorld (fun _ => authFailsScript)))]
    /\ count isNewPage (trace w')
       = S (count isNewPage (trace (freshWorld (fun _ => authFailsScript))))
    /\ count isPageClose (trace w')
       = count isPageClose (trace (freshWorld (fun _ => authFailsScript)))
    /\ count isBrowserClose (trace w')
       = S (count isBrowserClose (trace (freshWorld (fun _ => authFailsScript)))).
Proof.
  apply (@C2_created_page_is_not_closed_when_authentication_fails proxyEnv TARGET_URL
           (Some (Some 30000)) (freshWorld (fun _ => authFailsScript))
           {| host := "brd.superproxy.io"; port := 33335;
              username := "brd-customer-c_1-zone-web";
              proxyPassword := "secret" |}
           (JsErrorObject "net::ERR_PROXY_AUTH"));
    reflexivity.
Defined.

(** ** What a session touches *)

(** X4: every run of [scrapeUrl], whatever its exit, launches exactly one
    browser (the next script of the world is used); with the proxy
    configured it leaves [NODE_TLS_REJECT_UNAUTHORIZED] set to '0' in the
    process environment, also when the launch fails, and nothing sets it
    back; without proxy the variable is left as it was. *)
Theorem scrapeUrl_leaves_tls_validation_off (env : ProcessEnv) (url : string)
  (options : option (option Z)) (w : World) :
  exists r w',
    scrapeUrl env url options w = Some (r, w')
    /\ NODE_TLS_REJECT_UNAUTHORIZED w' =
       (if isBrightDataConfigured (BRIGHT_DATA_CONFIG env)
        then Some "0"%string else NODE_TLS_REJECT_UNAUTHORIZED w)
    /\ launched w' = S (launched w)
    /\ browsers w' = browsers w.
Proof.
  rewrite scrapeUrl_run. do 2 eexists. split; [reflexivity|].
  unfold afterSession, buildProxyConfig;
    cbn [NODE_TLS_REJECT_UNAUTHORIZED launched browsers].
  destruct (isBrightDataConfigured (BRIGHT_DATA_CONFIG env)); repeat split; reflexivity.
Qed.

Lemma in_sessionCalls_goto (proxyConfig : option ProxyConfig) (n : nat)
  (url : string) (timeout : Z) (s : BrowserScript) (p : nat) (u wu : string) (t : Z) :
  In (EvGoto p u wu t) (sessionCalls proxyConfig n url timeout s) ->
  p = n /\ u = url /\ wu = "networkidle2"%string /\ t = Z.max timeout 30000.
Proof.
  unfold sessionCalls, pageCalls, pageAcquired.
  destruct (launch_result s), (newPage_result s), proxyConfig,
    (authenticate_result s), (readsContent s); cbn [In app];
    intros H; repeat (destruct H as [H|H]; try discriminate H); try contradiction;
    injection H as <- <- <- <-; repeat split; reflexivity.
Qed.

Lemma count_goto_sessionCalls (proxyConfig : option ProxyConfig) (n : nat)
  (url : string) (timeout : Z) (s : BrowserScript) :
  count isGoto (sessionCalls proxyConfig n url timeout s) =
  (if browserAcquired s && pageAcquired proxyConfig s then 1 else 0)%nat.
Proof.
  unfold sessionCalls, pageCalls, browserAcquired, pageAcquired.
  destruct (launch_result s), (newPage_result s), proxyConfig,
    (authenticate_result s), (readsContent s); reflexivity.
Qed.

(** X5: a run of [scrapeUrl] navigates at most once, and exactly once when
    browser and page are acquired; the navigation goes to the url asked for,
    waits for 'networkidle2', and its timeout is the greater of the timeout
    given and 30000 ms: it is never below 30 s, and a timeout that is absent
    or 0 gives 30000. *)
Theorem navigation_timeout_floor_is_30s (env : ProcessEnv) (url : string)
  (options : option (option Z)) (w : World) :
  exists r w' evs,
    scrapeUrl env url options w = Some (r, w')
    /\ trace w' = trace w ++ evs
    /\ count isGoto evs =
       (if browserAcquired (browsers w (launched w))
           && pageAcquired (buildProxyConfig (BRIGHT_DATA_CONFIG env))
                (browsers w (launched w))
        then 1 else 0)%nat
    /\ (forall p u wu t,
          In (EvGoto p u wu t) evs ->
          p = launched w /\ u = url /\ wu = "networkidle2"%string
          /\ t = Z.max (givenTimeout options) 30000
          /\ 30000 <= t).
Proof.
  rewrite scrapeUrl_run. do 3 eexists. split; [reflexivity|].
  split; [reflexivity|]. split; [apply count_goto_sessionCalls|].
  intros p u wu t Hin. apply in_sessionCalls_goto in Hin.
  destruct Hin as (-> & -> & -> & ->). rewrite requestedTimeout_effective.
  repeat split; try reflexivity. lia.
Qed.

Lemma in_sessionCalls_authenticate (proxyConfig : option ProxyConfig) (n : nat)
  (url : string) (timeout : Z) (s : BrowserScript) (p : nat) (u pw : string) :
  In (EvAuthenticate p u pw) (sessionCalls proxyConfig n url timeout s) ->
  exists pc, proxyConfig = Some pc /\ p = n /\ u = username pc /\ pw = proxyPassword pc.
Proof.
  unfold sessionCalls, pageCalls, pageAcquired.
  destruct (launch_result s), (newPage_result s), proxyConfig as [pc|],
    (authenticate_result s), (readsContent s); cbn [In app];
    intros H; repeat (destruct H as [H|H]; try discriminate H); try contradiction;
    injection H as <- <- <-; exists pc; repeat split; reflexivity.
Qed.

Lemma count_authenticate_sessionCalls (proxyConfig : option ProxyConfig) (n : nat)
  (url : string) (timeout : Z) (s : BrowserScript) :
  count isAuthenticate (sessionCalls proxyConfig n url timeout s) =
  match launch_result s, newPage_result s, proxyConfig with
  | None, None, Some _ => 1
  | _, _, _ => 0
  end%nat.
Proof.
  unfold sessionCalls, pageCalls, pageAcquired.
  destruct (launch_result s), (newPage_result s), proxyConfig,
    (authenticate_result s), (readsContent s); reflexivity.
Qed.

(** X6: the page is authenticated only behind the proxy: without the three
    credentials no run of [scrapeUrl] calls [page.authenticate]; with them
    it is called once on every page created, with the user name
    'brd-customer-<id>-zone-<zone>' and the password of the environment. *)
Theorem authentication_only_behind_the_proxy (env : ProcessEnv) (url : string)
  (options : option (option Z)) (w : World) :
  exists r w' evs,
    scrapeUrl env url options w = Some (r, w')
    /\ trace w' = trace w ++ evs
    /\ count isAuthenticate evs =
       (if isBrightDataConfigured (BRIGHT_DATA_CONFIG env)
           && browserAcquired (browsers w (launched w))
           && match newPage_result (browsers w (launched w)) with
              | None => true
              | Some _ => false
              end
        then 1 else 0)%nat
    /\ (forall p u pw,
          In (EvAuthenticate p u pw) evs ->
          exists id zn,
            BRIGHT_DATA_CUSTOMER_ID env = Some id
            /\ BRIGHT_DATA_ZONE env = Some zn
            /\ BRIGHT_DATA_PASSWORD env = Some pw
            /\ p = launched w
            /\ u = ("brd-customer-" ++ id ++ "-zone-" ++ zn)%string).
Proof.
  rewrite scrapeUrl_run. do 3 eexists. split; [reflexivity|].
  split; [reflexivity|]. split.
  - rewrite count_authenticate_sessionCalls. unfold buildProxyConfig, browserAcquired.
    destruct (isBrightDataConfigured (BRIGHT_DATA_CONFIG env)),
      (launch_result (browsers w (launched w))),
      (newPage_result (browsers w (launched w))); reflexivity.
  - intros p u pw Hin. apply in_sessionCalls_authenticate in Hin.
    destruct Hin as (pc & Hpc & -> & -> & ->).
    apply buildProxyConfig_some in Hpc.
    destruct Hpc as (id & zn & pw & Hid & _ & Hzn & _ & Hpw & _ & ->).
    exists id, zn. repeat split; assumption || reflexivity.
Qed.

(** ** Failures of the navigation *)

(** X7: with browser and page acquired, a rejection of [page.goto], or of
    [page.content] after a response that passed the status check, is
    classified by its message: an [Error] whose message contains 'timeout'
    gives a TimeoutError, anything else (another message, or a thrown value
    that is no [Error]) gives the BrowserError 'Failed to navigate or get
    content' with the thrown value as cause.  The TimeoutError reports the
    timeout [scrapeUrl] was asked for (10000 when none or 0 was given), not
    the 30 s floor the navigation waited for.  Page and browser are closed,
    in that order. *)
Theorem navigation_rejection_is_classified_by_message (env : ProcessEnv)
  (url : string) (options : option (option Z)) (w : World) (v : JsValue) :
  launch_result (browsers w (launched w)) = None ->
  pageAcquired (buildProxyConfig (BRIGHT_DATA_CONFIG env)) (browsers w (launched w))
  = true ->
  (goto_result (browsers w (launched w)) = inl v
   \/ (content_result (browsers w (launched w)) = inl v
       /\ (goto_result (browsers w (launched w)) = inr None
           \/ exists st, goto_result (browsers w (launched w)) = inr (Some st)
                         /\ st < 400))) ->
  let asked := orDefault (match options with Some o => o | None => None end) 10000 in
  exists w' pre,
    scrapeUrl env url options w =
    Some (Failure
            (match v with
             | JsErrorObject m =>
                 if includes "timeout" m
                 then TimeoutError
                        ("Navigation timeout after " ++ numberToString asked ++ "ms")
                        url asked
                 else BrowserError "Failed to navigate or get content"
                        (Some (ThrownForeign v))
             | JsOtherValue _ =>
                 BrowserError "Failed to navigate or get content"
                   (Some (ThrownForeign v))
             end), w')
    /\ trace w' = trace w ++ pre ++ [EvPageClose (launched w); EvBrowserClose (launched w)].
Proof.
  intros Hl Hacq Hrej asked. rewrite scrapeUrl_run.
  fold (requestedTimeout options) in asked.
  unfold sessionExit, afterSession, sessionCalls, pageCalls, pageRejection, navigationExit,
    contentExit, readsContent. cbn [trace]. rewrite Hl, Hacq.
  assert (Hpr : match newPage_result (browsers w (launched w)),
                      buildProxyConfig (BRIGHT_DATA_CONFIG env) with
                | Some v0, _ => Some v0
                | None, Some _ => authenticate_result (browsers w (launched w))
                | None, None => None
                end = None).
  { revert Hacq. unfold pageAcquired.
    destruct (newPage_result (browsers w (launched w))),
      (buildProxyConfig (BRIGHT_DATA_CONFIG env)),
      (authenticate_result (browsers w (launched w))); intros H;
      try reflexivity; discriminate H. }
  rewrite Hpr.
  assert (Hnp : newPage_result (browsers w (launched w)) = None).
  { revert Hacq. unfold pageAcquired.
    destruct (newPage_result (browsers w (launched w))); [|reflexivity].
    destruct (buildProxyConfig (BRIGHT_DATA_CONFIG env)); discriminate. }
  rewrite Hnp.
  assert (Hcatch : navigateCatch url (requestedTimeout options) (ThrownForeign v) =
                   match v with
                   | JsErrorObject m =>
                       if includes "timeout" m
                       then TimeoutError
                              ("Navigation timeout after "
                               ++ numberToString asked ++ "ms")%string url asked
                       else BrowserError "Failed to navigate or get content"
                              (Some (ThrownForeign v))
                   | JsOtherValue _ =>
                       BrowserError "Failed to navigate or get content"
                         (Some (ThrownForeign v))
                   end).
  { destruct v; reflexivity. }
  destruct Hrej as [Hg|(Hc & [Hg|(st & Hg & Hst)])]; rewrite Hg; try rewrite Hc.
  - rewrite Hcatch. eexists.
    exists (EvLaunch (launched w)
              (launchOptionsFor (buildProxyConfig (BRIGHT_DATA_CONFIG env)))
            :: EvNewPage (launched w)
            :: match buildProxyConfig (BRIGHT_DATA_CONFIG env) with
               | Some pc => [EvAuthenticate (launched w) (username pc) (proxyPassword pc)]
               | None => []
               end
            ++ [EvGoto (launched w) url "networkidle2"
                  (Z.max (requestedTimeout options) 30000)]).
    split; [reflexivity|]. f_equal. cbn [app]. f_equal. f_equal.
    rewrite <- !app_assoc. reflexivity.
  - rewrite Hcatch. eexists.
    exists (EvLaunch (launched w)
              (launchOptionsFor (buildProxyConfig (BRIGHT_DATA_CONFIG env)))
            :: EvNewPage (launched w)
            :: match buildProxyConfig (BRIGHT_DATA_CONFIG env) with
               | Some pc => [EvAuthenticate (launched w) (username pc) (proxyPassword pc)]
               | None => []
               end
            ++ [EvGoto (launched w) url "networkidle2"
                  (Z.max (requestedTimeout options) 30000);
                EvContent (launched w)]).
    split; [reflexivity|]. f_equal. cbn [app]. f_equal. f_equal.
    rewrite <- !app_assoc. reflexivity.
  - assert (H1 : (st =? 429) = false) by (apply Z.eqb_neq; lia).
    assert (H2 : (st =? 403) = false) by (apply Z.eqb_neq; lia).
    assert (H3 : (st >=? 400) = false) by (rewrite Z.geb_leb; apply Z.leb_gt; lia).
    rewrite H1, H2, H3, Hcatch. cbn [negb]. eexists.
    exists (EvLaunch (launched w)
              (launchOptionsFor (buildProxyConfig (BRIGHT_DATA_CONFIG env)))
            :: EvNewPage (launched w)
            :: match buildProxyConfig (BRIGHT_DATA_CONFIG env) with
               | Some pc => [EvAuthenticate (launched w) (username pc) (proxyPassword pc)]
               | None => []
               end
            ++ [EvGoto (launched w) url "networkidle2"
                  (Z.max (requestedTimeout options) 30000);
                EvContent (launched w)]).
    split; [reflexivity|]. f_equal. cbn [app]. f_equal. f_equal.
    rewrite <- !app_assoc. reflexivity.
Qed.

Lemma navigation_rejection_is_classified_by_message_witness :
  exists w' pre,
    scrapeUrl noProxyEnv TARGET_URL None (freshWorld (fun _ => navigationTimesOutScript)) =
    Some (Failure
            (TimeoutError "Navigation timeout after 10000ms" TARGET_URL 10000), w')
    /\ trace w' =
       trace (freshWorld (fun _ => navigationTimesOutScript))
       ++ pre ++ [EvPageClose (launched (freshWorld (fun _ => navigationTimesOutScript)));
                  EvBrowserClose (launched (freshWorld (fun _ => navigationTimesOutScript)))].
Proof.
  apply (@navigation_rejection_is_classified_by_message noProxyEnv TARGET_URL None
           (freshWorld (fun _ => navigationTimesOutScript))
           (JsErrorObject "Navigation timeout of 30000 ms exceeded")).
  - reflexivity.
  - reflexivity.
  - left. reflexivity.
Defined.

(** ** The retry wrapper in full *)

(** The retry-eligibility predicate holds of every tagged error except
    ParseError: the five tags of [retryableErrors] are exactly the tags of
    NetworkError, TimeoutError, RateLimitError, IPBlockError and
    BrowserError. *)
Lemma every_error_but_ParseError_is_retryable (e : ScrapingError) :
  isRetryableError e = match e with ParseError _ _ => false | _ => true end.
Proof. destruct e; reflexivity. Qed.

Ltac retry_turn_eq script :=
  rewrite retryLoop_policy; unfold scripted at 1; cbn [invoked log];
  match goal with
  | |- context [script ?n] =>
      let e := fresh "e" in
      let Hs := fresh "Hs" in
      let Hr := fresh "Hr" in
      destruct (script n) as [?|e] eqn:Hs;
      [|destruct (isRetryableError e) eqn:Hr];
      cbn [andb negb Nat.ltb Nat.leb]
  end.

Ltac final_before :=
  let j := fresh "j" in
  let Hj := fresh "Hj" in
  intros j Hj;
  repeat (destruct j as [|j]; [cbn [Nat.add];
    repeat match goal with H : _ = _ |- _ => rewrite H end; reflexivity|]);
  exfalso; cbn in Hj; lia.

(** X8: over an operation whose n-th run exits as [script n],
    [retryIfRetryable] runs it until the first run that succeeds or fails
    with a retryable failure, and at most 4 times; its exit is the exit of
    the last run, unchanged; before each further run it sleeps 1 s, 2 s and
    4 s.  (Every earlier run failed with a failure that is not retryable.) *)
Theorem retryIfRetryable_runs_until_first_final_exit (A : Type)
  (script : nat -> Exit A ScrapingError) (w : World) :
  let final := fun j : nat =>
    match script (j + invoked w)%nat with
    | Success _ => true
    | Failure e => isRetryableError e
    end in
  exists k w',
    (1 <= k <= 4)%nat
    /\ retryIfRetryable (scripted script) w = Some (script (k - 1 + invoked w)%nat, w')
    /\ (forall j, (j < k - 1)%nat -> final j = false)
    /\ ((k < 4)%nat -> final (k - 1)%nat = true)
    /\ trace w' = trace w ++ firstn (2 * k - 1) (attemptsTrace (invoked w))
    /\ invoked w' = (k + invoked w)%nat.
Proof.
  intros final; subst final.
  assert (Hgoal :
    match retryIfRetryable (scripted script) w with
    | Some (r, w') =>
        exists k, (1 <= k <= 4)%nat
          /\ r = script (k - 1 + invoked w)%nat
          /\ (forall j, (j < k - 1)%nat ->
                match script (j + invoked w)%nat with
                | Success _ => true
                | Failure e => isRetryableError e
                end = false)
          /\ ((k < 4)%nat ->
              match script (k - 1 + invoked w)%nat with
              | Success _ => true
              | Failure e => isRetryableError e
              end = true)
          /\ trace w' = trace w ++ firstn (2 * k - 1) (attemptsTrace (invoked w))
          /\ invoked w' = (k + invoked w)%nat
    | None => False
    end).
  { rewrite retryIfRetryable_unfold.
    retry_turn_eq script;
      try (exists 1%nat; cbn [Nat.sub Nat.add]; rewrite ?Hs, ?Hr;
           split; [lia|]; split; [reflexivity|]; split; [final_before|];
           split; [reflexivity|]; split; reflexivity).
    retry_turn_eq script;
      try (exists 2%nat; cbn [Nat.sub Nat.add]; rewrite ?Hs0, ?Hr0;
           split; [lia|]; split; [reflexivity|]; split; [final_before|];
           split; [reflexivity|]; split; [|reflexivity];
           cbn [trace log]; rewrite <- !app_assoc; reflexivity).
    retry_turn_eq script;
      try (exists 3%nat; cbn [Nat.sub Nat.add]; rewrite ?Hs1, ?Hr1;
           split; [lia|]; split; [reflexivity|]; split; [final_before|];
           split; [reflexivity|]; split; [|reflexivity];
           cbn [trace log]; rewrite <- !app_assoc; reflexivity).
    retry_turn_eq script;
      try (exists 4%nat; cbn [Nat.sub Nat.add]; rewrite ?Hs2, ?Hr2;
           split; [lia|]; split; [reflexivity|]; split; [final_before|];
           split; [intros; lia|]; split; [|reflexivity];
           cbn [trace log]; rewrite <- !app_assoc; reflexivity). }
  destruct (retryIfRetryable (scripted script) w) as [[r w']|]; [|contradiction].
  destruct Hgoal as (k & Hk & -> & Hbefore & Hlast & Htr & Hinv).
  exists k, w'. repeat split; try assumption; lia.
Qed.

(** ** The pipeline end to end *)

Lemma sessionExit_retryable (proxyConfig : option ProxyConfig) (url : string)
  (timeout : Z) (s : BrowserScript) (e : ScrapingError) :
  sessionExit proxyConfig url timeout s = Failure e -> isRetryableError e = true.
Proof.
  unfold sessionExit, navigationExit, contentExit.
  destruct (launch_result s); [intros [= <-]; reflexivity|].
  destruct (pageRejection proxyConfig s); [intros [= <-]; reflexivity|].
  destruct (goto_result s) as [v|[st|]].
  - intros H; apply Failure_inj in H; rewrite <- H. apply navigateCatch_retryable.
  - destruct (st =? 429); [intros [= <-]; reflexivity|].
    destruct (st =? 403); [intros [= <-]; reflexivity|].
    destruct (st >=? 400); [intros [= <-]; reflexivity|].
    destruct (content_result s); [|discriminate].
    intros H; apply Failure_inj in H; rewrite <- H. apply navigateCatch_retryable.
  - destruct (content_result s); [|discriminate].
    intros H; apply Failure_inj in H; rewrite <- H. apply navigateCatch_retryable.
Qed.

Lemma sessionCalls_tail (proxyConfig : option ProxyConfig) (n : nat) (url : string)
  (timeout : Z) (s : BrowserScript) :
  exists rest,
    sessionCalls proxyConfig n url timeout s
    = EvLaunch n (launchOptionsFor proxyConfig) :: rest
    /\ count isLaunch rest = 0%nat
    /\ count isSleep rest = 0%nat.
Proof.
  unfold sessionCalls, pageCalls, pageAcquired. eexists. split; [reflexivity|].
  destruct (launch_result s), (newPage_result s), proxyConfig,
    (authenticate_result s), (readsContent s); split; reflexivity.
Qed.

Lemma scrapeWithRetry_unfolds
  (cheerio_load : string -> Thrown + Document)
  (cheerio_throws : CheerioCall -> option Thrown) (env : ProcessEnv) (w : World) :
  scrapeWithRetry cheerio_load cheerio_throws env w =
  Effect_flatMap (parseHtml cheerio_load cheerio_throws)
    (scrapeUrl env TARGET_URL (Some (Some 30000))) (log (EvSleep 100) w).
Proof.
  unfold scrapeWithRetry, Effect_flatMap. rewrite fetch_stage_is_one_session.
  reflexivity.
Qed.

(** X9: a run of the pipeline is one delay of 100 ms, one session and, if
    the session succeeded, the extraction: [scrapeWithRetry] equals
    [flatMap(parseHtml)] of [scrapeUrl(TARGET_URL, { timeout: 30000 })]
    started after the delay.  The retry wrapper never recurs here, because
    every failure of the session is one that satisfies its [until]
    predicate: a run launches exactly one browser and sleeps exactly once,
    and a failure of the session is the failure of the pipeline,
    unchanged. *)
Theorem scrapeWithRetry_is_one_delayed_session
  (cheerio_load : string -> Thrown + Document)
  (cheerio_throws : CheerioCall -> option Thrown) (env : ProcessEnv) (w : World) :
  scrapeWithRetry cheerio_load cheerio_throws env w =
  Effect_flatMap (parseHtml cheerio_load cheerio_throws)
    (scrapeUrl env TARGET_URL (Some (Some 30000))) (log (EvSleep 100) w)
  /\ exists r w' rest,
       scrapeWithRetry cheerio_load cheerio_throws env w = Some (r, w')
       /\ trace w' =
          trace w ++ EvSleep 100
            :: EvLaunch (launched w)
                 (launchOptionsFor (buildProxyConfig (BRIGHT_DATA_CONFIG env)))
            :: rest
       /\ count isLaunch rest = 0%nat
       /\ count isSleep rest = 0%nat
       /\ launched w' = S (launched w)
       /\ (forall e w1,
             scrapeUrl env TARGET_URL (Some (Some 30000)) (log (EvSleep 100) w)
             = Some (Failure e, w1) ->
             r = Failure e /\ w' = w1).
Proof.
  pose proof (scrapeWithRetry_unfolds cheerio_load cheerio_throws env w) as Heq.
  split; [exact Heq|]. rewrite Heq. unfold Effect_flatMap. rewrite scrapeUrl_run.
  destruct (sessionCalls_tail (buildProxyConfig (BRIGHT_DATA_CONFIG env))
              (launched w) TARGET_URL (requestedTimeout (Some (Some 30000)))
              (browsers w (launched w))) as (rest & Hcalls & Hl & Hs).
  set (w1 := afterSession (buildProxyConfig (BRIGHT_DATA_CONFIG env)) TARGET_URL
               (requestedTimeout (Some (Some 30000))) (log (EvSleep 100) w)).
  assert (Htr : trace w1 =
                trace w ++ EvSleep 100
                  :: EvLaunch (launched w)
                       (launchOptionsFor (buildProxyConfig (BRIGHT_DATA_CONFIG env)))
                  :: rest).
  { unfold w1, afterSession; cbn [trace log launched browsers]. rewrite Hcalls.
    rewrite <- app_assoc. reflexivity. }
  destruct (sessionExit (buildProxyConfig (BRIGHT_DATA_CONFIG env)) TARGET_URL
              (requestedTimeout (Some (Some 30000)))
              (browsers (log (EvSleep 100) w) (launched (log (EvSleep 100) w))))
    as [html|e].
  - destruct (parseHtml_world cheerio_load cheerio_throws html w1) as [r Hr].
    exists r, w1, rest. rewrite Hr.
    split; [reflexivity|]. split; [exact Htr|]. split; [exact Hl|].
    split; [exact Hs|]. split; [reflexivity|].
    intros e0 w2 H; discriminate H.
  - exists (Failure e), w1, rest.
    split; [reflexivity|]. split; [exact Htr|]. split; [exact Hl|].
    split; [exact Hs|]. split; [reflexivity|].
    intros e0 w2 [= <- <-]. split; reflexivity.
Qed.

(** X10: when the browser launches, the page is acquired, the navigation
    resolves with no response or a status below 400, the content is read,
    the parser returns a document and the library calls of the extraction
    on that document return, the pipeline succeeds with the
    record extracted from that document, after one acquire and release
    cycle and no retry: delay, launch, page, authentication behind the
    proxy, navigation with the 30 s timeout, content, page close, browser
    close.  Whether the close calls fail makes no difference. *)
Theorem pipeline_succeeds_in_one_cycle
  (cheerio_load : string -> Thrown + Document)
  (cheerio_throws : CheerioCall -> option Thrown) (env : ProcessEnv) (w : World)
  (html : string) (doc : Document) :
  launch_result (browsers w (launched w)) = None ->
  pageAcquired (buildProxyConfig (BRIGHT_DATA_CONFIG env)) (browsers w (launched w))
  = true ->
  (goto_result (browsers w (launched w)) = inr None
   \/ exists st, goto_result (browsers w (launched w)) = inr (Some st) /\ st < 400) ->
  content_result (browsers w (launched w)) = inr html ->
  cheerio_load html = inr doc ->
  extractionCallsReturn cheerio_throws doc ->
  exists w',
    scrapeWithRetry cheerio_load cheerio_throws env w =
    Some (Success
            {| title := trim (selectionText (select "h1" doc));
               spans := filter (fun s => negb (String.eqb s ""))
                          (map (fun el => trim (nodeText el)) (select "span" doc));
               url := TARGET_URL |}, w')
    /\ trace w' =
       trace w
       ++ [EvSleep 100;
           EvLaunch (launched w)
             (launchOptionsFor (buildProxyConfig (BRIGHT_DATA_CONFIG env)));
           EvNewPage (launched w)]
       ++ match buildProxyConfig (BRIGHT_DATA_CONFIG env) with
          | Some pc => [EvAuthenticate (launched w) (username pc) (proxyPassword pc)]
          | None => []
          end
       ++ [EvGoto (launched w) TARGET_URL "networkidle2" 30000;
           EvContent (launched w); EvPageClose (launched w);
           EvBrowserClose (launched w)].
Proof.
  intros Hl Hacq Hgoto Hcontent Hload Hquiet.
  rewrite scrapeWithRetry_unfolds. unfold Effect_flatMap. rewrite scrapeUrl_run.
  cbn [browsers launched log].
  assert (Hnp : newPage_result (browsers w (launched w)) = None).
  { revert Hacq. unfold pageAcquired.
    destruct (newPage_result (browsers w (launched w))); [|reflexivity].
    destruct (buildProxyConfig (BRIGHT_DATA_CONFIG env)); discriminate. }
  assert (Hpr : pageRejection (buildProxyConfig (BRIGHT_DATA_CONFIG env))
                  (browsers w (launched w)) = None).
  { revert Hacq. unfold pageAcquired, pageRejection. rewrite Hnp.
    destruct (buildProxyConfig (BRIGHT_DATA_CONFIG env)),
      (authenticate_result (browsers w (launched w))); intros H;
      try reflexivity; discriminate H. }
  assert (Hexit : sessionExit (buildProxyConfig (BRIGHT_DATA_CONFIG env)) TARGET_URL
                    (requestedTimeout (Some (Some 30000))) (browsers w (launched w))
                  = Success html).
  { unfold sessionExit, navigationExit, contentExit. rewrite Hl, Hpr, Hcontent.
    destruct Hgoto as [Hg|(st & Hg & Hst)]; rewrite Hg; [reflexivity|].
    replace (st =? 429) with false by (symmetry; apply Z.eqb_neq; lia).
    replace (st =? 403) with false by (symmetry; apply Z.eqb_neq; lia).
    replace (st >=? 400) with false
      by (symmetry; rewrite Z.geb_leb; apply Z.leb_gt; lia).
    reflexivity. }
  assert (Hread : readsContent (browsers w (launched w)) = true).
  { unfold readsContent. destruct Hgoto as [Hg|(st & Hg & Hst)]; rewrite Hg;
      [reflexivity|].
    replace (st >=? 400) with false
      by (symmetry; rewrite Z.geb_leb; apply Z.leb_gt; lia).
    reflexivity. }
  rewrite Hexit, (parseHtml_document cheerio_load html _ Hload Hquiet).
  eexists. split; [reflexivity|].
  unfold afterSession, sessionCalls, pageCalls; cbn [trace log launched browsers].
  rewrite Hl, Hnp, Hacq, Hread.
  destruct (buildProxyConfig (BRIGHT_DATA_CONFIG env));
    cbn [app]; rewrite <- ?app_assoc; reflexivity.
Qed.

Lemma pipeline_succeeds_in_one_cycle_witness :
  exists w',
    scrapeWithRetry quotesLoad neverThrows noProxyEnv
      (freshWorld (fun _ => servingScript quotesHtml)) =
    Some (Success
            {| title := trim (selectionText (select "h1" quotesDocument));
               spans := filter (fun s => negb (String.eqb s ""))
                          (map (fun el => trim (nodeText el))
                             (select "span" quotesDocument));
               url := TARGET_URL |}, w')
    /\ trace w' =
       trace (freshWorld (fun _ => servingScript quotesHtml))
       ++ [EvSleep 100;
           EvLaunch (launched (freshWorld (fun _ => servingScript quotesHtml)))
             (launchOptionsFor (buildProxyConfig (BRIGHT_DATA_CONFIG noProxyEnv)));
           EvNewPage (launched (freshWorld (fun _ => servingScript quotesHtml)))]
       ++ match buildProxyConfig (BRIGHT_DATA_CONFIG noProxyEnv) with
          | Some pc =>
              [EvAuthenticate (launched (freshWorld (fun _ => servingScript quotesHtml)))
                 (username pc) (proxyPassword pc)]
          | None => []
          end
       ++ [EvGoto (launched (freshWorld (fun _ => servingScript quotesHtml)))
             TARGET_URL "networkidle2" 30000;
           EvContent (launched (freshWorld (fun _ => servingScript quotesHtml)));
           EvPageClose (launched (freshWorld (fun _ => servingScript quotesHtml)));
           EvBrowserClose (launched (freshWorld (fun _ => servingScript quotesHtml)))].
Proof.
  apply (@pipeline_succeeds_in_one_cycle quotesLoad neverThrows noProxyEnv
           (freshWorld (fun _ => servingScript quotesHtml)) quotesHtml quotesDocument).
  - reflexivity.
  - reflexivity.
  - right. exists 200. split; [reflexivity|lia].
  - reflexivity.
  - reflexivity.
  - apply neverThrows_returns.
Defined.

(** ** Extraction: what a record holds *)

Lemma trimStart_startsClean (s : string) : startsClean (trimStart s) = true.
Proof.
  induction s as [|c s IH]; [reflexivity|]. cbn [trimStart].
  destruct (isWhiteSpace c) eqn:Hc; [exact IH|]. cbn [startsClean]. rewrite Hc. reflexivity.
Qed.

Lemma trimStart_clean (s : string) : startsClean s = true -> trimStart s = s.
Proof.
  destruct s as [|c s]; [reflexivity|]. cbn [startsClean trimStart].
  destruct (isWhiteSpace c); [discriminate|reflexivity].
Qed.

Lemma trimEnd_startsClean (s : string) :
  startsClean s = true -> startsClean (trimEnd s) = true.
Proof.
  destruct s as [|c s]; [reflexivity|]. cbn [startsClean trimEnd].
  intros Hc. destruct (trimEnd s); [|exact Hc].
  destruct (isWhiteSpace c) eqn:E; [discriminate|].
  cbn [startsClean]. rewrite E. reflexivity.
Qed.

Lemma trimEnd_idempotent (s : string) : trimEnd (trimEnd s) = trimEnd s.
Proof.
  induction s as [|c s IH]; [reflexivity|]. cbn [trimEnd].
  destruct (trimEnd s) as [|c' r'] eqn:Hr.
  - destruct (isWhiteSpace c) eqn:Hc; [reflexivity|]. cbn [trimEnd]. rewrite Hc. reflexivity.
  - change (trimEnd (String c (String c' r'))) with
      (match trimEnd (String c' r') with
       | EmptyString => if isWhiteSpace c then EmptyString else String c EmptyString
       | rest' => String c rest'
       end).
    rewrite IH. reflexivity.
Qed.

Lemma trim_idempotent (s : string) : trim (trim s) = trim s.
Proof.
  unfold trim.
  rewrite (trimStart_clean (trimEnd (trimStart s))).
  - apply trimEnd_idempotent.
  - apply trimEnd_startsClean, trimStart_startsClean.
Qed.

(** X11: whatever the html, a record returned by [parseHtml] has a trimmed
    title, and each of its spans is non-empty and trimmed (trimming it again
    changes nothing): no span is empty or carries leading or trailing white
    space.  There are no more spans than span elements in the document. *)
Theorem extracted_spans_are_non_empty_and_trimmed
  (cheerio_load : string -> Thrown + Document)
  (cheerio_throws : CheerioCall -> option Thrown) (html : string) (w w' : World)
  (r : ScrapingResult) :
  parseHtml cheerio_load cheerio_throws html w = Some (Success r, w') ->
  trim (title r) = title r
  /\ Forall (fun s => s <> ""%string /\ trim s = s) (spans r)
  /\ (forall doc, cheerio_load html = inr doc ->
        (List.length (spans r) <= List.length (select "span" doc))%nat)
  /\ w' = w.
Proof.
  intros Hparse. apply parseHtml_success in Hparse.
  destruct Hparse as (-> & doc & Hload & ->).
  cbn [title spans]. split; [apply trim_idempotent|]. split; [|split].
  - apply Forall_forall. intros s Hin. apply filter_In in Hin.
    destruct Hin as [Hin Hlen]. apply in_map_iff in Hin.
    destruct Hin as (el & <- & _). split.
    + intros Hempty. rewrite Hempty in Hlen. discriminate Hlen.
    + apply trim_idempotent.
  - intros doc' Hload'. rewrite Hload in Hload'. injection Hload' as <-.
    etransitivity; [apply filter_length_le|]. rewrite length_map. reflexivity.
  - reflexivity.
Qed.

Lemma extracted_spans_are_non_empty_and_trimmed_witness :
  trim (title {| title := "Quotes to Scrape"; spans := ["first"; "second"; "third"];
                 url := TARGET_URL |})
  = title {| title := "Quotes to Scrape"; spans := ["first"; "second"; "third"];
             url := TARGET_URL |}
  /\ Forall (fun s => s <> ""%string /\ trim s = s)
       (spans {| title := "Quotes to Scrape"; spans := ["first"; "second"; "third"];
                 url := TARGET_URL |})
  /\ (forall doc, quotesLoad quotesHtml = inr doc ->
        (List.length
           (spans {| title := "Quotes to Scrape"; spans := ["first"; "second"; "third"];
                     url := TARGET_URL |})
         <= List.length (select "span" doc))%nat)
  /\ freshWorld (fun _ => idleScript) = freshWorld (fun _ => idleScript).
Proof.
  apply (@extracted_spans_are_non_empty_and_trimmed quotesLoad neverThrows quotesHtml
           (freshWorld (fun _ => idleScript)) (freshWorld (fun _ => idleScript))).
  reflexivity.
Defined.

(** ** The program *)

Lemma scrapeWithRetry_is_run
  (cheerio_load : string -> Thrown + Document)
  (cheerio_throws : CheerioCall -> option Thrown) (env : ProcessEnv) (w : World) :
  exists r w', scrapeWithRetry cheerio_load cheerio_throws env w = Some (r, w').
Proof.
  rewrite scrapeWithRetry_unfolds. unfold Effect_flatMap. rewrite scrapeUrl_run.
  destruct (sessionExit _ _ _ _) as [html|e].
  - destruct (parseHtml_world cheerio_load cheerio_throws html
                (afterSession (buildProxyConfig (BRIGHT_DATA_CONFIG env)) TARGET_URL
                   (requestedTimeout (Some (Some 30000))) (log (EvSleep 100) w)))
      as [r Hr].
    rewrite Hr. do 2 eexists. reflexivity.
  - do 2 eexists. reflexivity.
Qed.

(** X12: the program reports every outcome of the pipeline and fails on
    none.  When the pipeline succeeds it logs 'Scraping successful!' and then
    the record as indented JSON, and [process.exit] is not called; when the
    pipeline fails it writes 'Pipeline failed:' with that failure to the
    error stream and exits with status 1.  Nothing else is written, and the
    world is the one the pipeline left. *)
Theorem program_reports_and_exits_1_on_failure
  (cheerio_load : string -> Thrown + Document)
  (cheerio_throws : CheerioCall -> option Thrown) (env : ProcessEnv) (p : Process) :
  exists r w',
    scrapeWithRetry cheerio_load cheerio_throws env (world p) = Some (r, w')
    /\ main cheerio_load cheerio_throws env p =
       Some {| world := w';
               console :=
                 console p
                 ++ match r with
                    | Success result =>
                        [ConsoleLog [ArgText "Scraping successful!"];
                         ConsoleLog [ArgText (JSON_stringify result)]]
                    | Failure error =>
                        [ConsoleError [ArgText "Pipeline failed:"; ArgError error]]
                    end;
               exitCode :=
                 match r with
                 | Success _ => exitCode p
                 | Failure _ => Some 1
                 end |}.
Proof.
  destruct (scrapeWithRetry_is_run cheerio_load cheerio_throws env (world p))
    as (r & w' & Hrun).
  exists r, w'. split; [exact Hrun|].
  unfold main, program, Program_catchAll, Program_tap, Program_flatMap, inProcess.
  rewrite Hrun. destruct r as [result|error]; cbn; rewrite <- ?app_assoc; reflexivity.
Qed.

(** ** Launch options *)

(** X13: every run of [scrapeUrl] starts by launching a headless browser
    with the two sandbox flags.  With the proxy configured the options also
    ignore HTTPS errors and route through the fixed proxy server
    'brd.superproxy.io:33335', whatever the credentials are; without it
    neither is set. *)
Theorem launch_options_of_every_session (env : ProcessEnv) (url : string)
  (options : option (option Z)) (w : World) :
  exists r w' rest,
    scrapeUrl env url options w = Some (r, w')
    /\ trace w' =
       trace w
       ++ EvLaunch (launched w)
            (if isBrightDataConfigured (BRIGHT_DATA_CONFIG env)
             then {| headless := true;
                     args := ["--no-sandbox"%string; "--disable-setuid-sandbox"%string;
                              "--proxy-server=brd.superproxy.io:33335"%string];
                     ignoreHTTPSErrors := true |}
             else {| headless := true;
                     args := ["--no-sandbox"%string; "--disable-setuid-sandbox"%string];
                     ignoreHTTPSErrors := false |})
          :: rest
    /\ count isLaunch rest = 0%nat.
Proof.
  rewrite scrapeUrl_run.
  destruct (sessionCalls_tail (buildProxyConfig (BRIGHT_DATA_CONFIG env))
              (launched w) url (requestedTimeout options) (browsers w (launched w)))
    as (rest & Hcalls & Hl & _).
  do 2 eexists. exists rest. split; [reflexivity|]. split; [|exact Hl].
  unfold afterSession; cbn [trace]. rewrite Hcalls.
  unfold buildProxyConfig.
  destruct (isBrightDataConfigured (BRIGHT_DATA_CONFIG env)); reflexivity.
Qed.

(** ** The ingestion examples *)

Lemma responseOk_excludes_429_403 (response : FetchResponse) :
  responseOk response = true ->
  (responseStatus response =? 429) = false /\ (responseStatus response =? 403) = false.
Proof.
  unfold responseOk. intros H. apply andb_prop in H. destruct H as [H1 H2].
  apply Z.leb_le in H1, H2. split; apply Z.eqb_neq; lia.
Qed.

(** X14: the promise version resolves exactly when [fetch] resolves with a
    status from 200 to 299 and the body can be read, and then with the name
    of the source and that body.  Every other status throws: 429 'Rate
    limited', 403 'Access denied', any other (below 200 or from 300 up)
    'HTTP <status>'; a rejection of [fetch] or of reading the body is thrown
    on as it is. *)
Theorem promise_version_resolves_iff_ok_and_readable (fetch : Fetch)
  (source : DataSource) :
  (forall data,
     PromiseVersion.fetchFromSource fetch source = inr data <->
     exists response content,
       fetch (sourceUrl source) = inr response
       /\ 200 <= responseStatus response <= 299
       /\ responseText response = inr content
       /\ data = {| dataSource := sourceName source; dataContent := content |})
  /\ (forall response,
        fetch (sourceUrl source) = inr response ->
        (responseStatus response = 429 ->
         PromiseVersion.fetchFromSource fetch source = inl (JsErrorObject "Rate limited"))
        /\ (responseStatus response = 403 ->
            PromiseVersion.fetchFromSource fetch source
            = inl (JsErrorObject "Access denied"))
        /\ (responseStatus response < 200 \/ 300 <= responseStatus response ->
            responseStatus response <> 429 -> responseStatus response <> 403 ->
            PromiseVersion.fetchFromSource fetch source
            = inl (JsErrorObject
                     ("HTTP " ++ numberToString (responseStatus response))))
        /\ (forall thrown,
              200 <= responseStatus response <= 299 ->
              responseText response = inl thrown ->
              PromiseVersion.fetchFromSource fetch source = inl thrown))
  /\ (forall thrown,
        fetch (sourceUrl source) = inl thrown ->
        PromiseVersion.fetchFromSource fetch source = inl thrown).
Proof.
  unfold PromiseVersion.fetchFromSource. split; [|split].
  - intros data. split.
    + destruct (fetch (sourceUrl source)) as [thrown|response]; [discriminate|].
      destruct (responseStatus response =? 429); [discriminate|].
      destruct (responseStatus response =? 403); [discriminate|].
      destruct (responseOk response) eqn:Hok; [|discriminate]. cbn [negb].
      destruct (responseText response) as [thrown|content] eqn:Ht; [discriminate|].
      intros [= <-]. exists response, content. unfold responseOk in Hok.
      apply andb_prop in Hok. destruct Hok as [H1 H2]. apply Z.leb_le in H1, H2.
      repeat split; try assumption; reflexivity.
    + intros (response & content & Hf & Hst & Ht & ->). rewrite Hf.
      assert (Hok : responseOk response = true).
      { unfold responseOk. apply andb_true_intro. split; apply Z.leb_le; lia. }
      destruct (responseOk_excludes_429_403 response Hok) as [-> ->].
      rewrite Hok, Ht. reflexivity.
  - intros response Hf. rewrite Hf. repeat split.
    + intros ->. reflexivity.
    + intros ->. reflexivity.
    + intros Hout H429 H403.
      replace (responseStatus response =? 429) with false
        by (symmetry; apply Z.eqb_neq; exact H429).
      replace (responseStatus response =? 403) with false
        by (symmetry; apply Z.eqb_neq; exact H403).
      replace (responseOk response) with false; [reflexivity|].
      symmetry. unfold responseOk. apply andb_false_iff.
      destruct Hout; [left|right]; apply Z.leb_gt; lia.
    + intros thrown Hst Ht.
      assert (Hok : responseOk response = true).
      { unfold responseOk. apply andb_true_intro. split; apply Z.leb_le; lia. }
      destruct (responseOk_excludes_429_403 response Hok) as [-> ->].
      rewrite Hok, Ht. reflexivity.
  - intros thrown ->. reflexivity.
Qed.

(** The exit of the effect version, from the outcome of [fetch]. *)
Lemma effect_version_run (fetch : Fetch) (source : DataSource)
  (out : list ConsoleLine) :
  EffectVersion.fetchFromSource source (EffectVersion.HttpClientLive fetch) out =
  (match fetch (sourceUrl source) with
   | inl _ =>
       Failure (EffectVersion.NetworkError
                  ("Failed to fetch " ++ sourceUrl source) (sourceUrl source))
   | inr response =>
       if responseStatus response =? 429 then
         Failure (EffectVersion.RateLimitError
                    ("Rate limited for " ++ sourceName source) (sourceUrl source))
       else if responseStatus response =? 403 then
         Failure (EffectVersion.CaptchaError
                    ("Captcha challenge for " ++ sourceName source) (sourceUrl source))
       else if negb (responseOk response) then
         Failure (EffectVersion.NetworkError
                    ("HTTP " ++ numberToString (responseStatus response)
                     ++ " for " ++ sourceName source) (sourceUrl source))
       else
         match responseText response with
         | inl _ =>
             Failure (EffectVersion.NetworkError
                        ("Failed to read response from " ++ sourceName source)
                        (sourceUrl source))
         | inr content =>
             Success {| dataSource := sourceName source; dataContent := content |}
         end
   end, out).
Proof.
  unfold EffectVersion.fetchFromSource, EffectVersion.HttpClientLive,
    EffectVersion.flatMap, EffectVersion.tryPromise, EffectVersion.succeed,
    EffectVersion.fail; cbn [EffectVersion.httpFetch].
  destruct (fetch (sourceUrl source)) as [thrown|response]; [reflexivity|].
  destruct (responseStatus response =? 429); [reflexivity|].
  destruct (responseStatus response =? 403); [reflexivity|].
  destruct (responseOk response); cbn [negb]; [|reflexivity].
  destruct (responseText response); reflexivity.
Qed.

(** X15: the effect version and the promise version agree on every outcome
    of [fetch]: the effect succeeds with a value exactly when the promise
    resolves with it, and fails exactly when the promise throws.  Its
    failure is typed by what went wrong (429 RateLimitError, 403
    CaptchaError, everything else NetworkError), always names the url of the
    source, and nothing is written to the console. *)
Theorem effect_version_agrees_with_promise_version (fetch : Fetch)
  (source : DataSource) (out : list ConsoleLine) :
  snd (EffectVersion.fetchFromSource source (EffectVersion.HttpClientLive fetch) out)
  = out
  /\ (forall data,
        fst (EffectVersion.fetchFromSource source (EffectVersion.HttpClientLive fetch) out)
        = Success data
        <-> PromiseVersion.fetchFromSource fetch source = inr data)
  /\ (forall e,
        fst (EffectVersion.fetchFromSource source (EffectVersion.HttpClientLive fetch) out)
        = Failure e ->
        (exists thrown, PromiseVersion.fetchFromSource fetch source = inl thrown)
        /\ EffectVersion.ingestionUrl e = sourceUrl source
        /\ (forall response,
              fetch (sourceUrl source) = inr response ->
              match e with
              | EffectVersion.RateLimitError _ _ => responseStatus response = 429
              | EffectVersion.CaptchaError _ _ => responseStatus response = 403
              | EffectVersion.NetworkError _ _ =>
                  responseStatus response <> 429 /\ responseStatus response <> 403
              end)).
Proof.
  rewrite effect_version_run. unfold PromiseVersion.fetchFromSource. cbn [fst snd].
  split; [reflexivity|].
  destruct (fetch (sourceUrl source)) as [thrown|response].
  { split.
    - intros data. split; discriminate.
    - intros e [= <-]. split; [eexists; reflexivity|]. split; [reflexivity|].
      intros response H; discriminate H. }
  destruct (responseStatus response =? 429) eqn:E429.
  { apply Z.eqb_eq in E429. split.
    - intros data. split; discriminate.
    - intros e [= <-]. split; [eexists; reflexivity|]. split; [reflexivity|].
      intros response' [= <-]. exact E429. }
  destruct (responseStatus response =? 403) eqn:E403.
  { apply Z.eqb_eq in E403. split.
    - intros data. split; discriminate.
    - intros e [= <-]. split; [eexists; reflexivity|]. split; [reflexivity|].
      intros response' [= <-]. exact E403. }
  apply Z.eqb_neq in E429, E403.
  destruct (responseOk response); cbn [negb].
  - destruct (responseText response) as [thrown|content].
    + split.
      * intros data. split; discriminate.
      * intros e [= <-]. split; [eexists; reflexivity|]. split; [reflexivity|].
        intros response' [= <-]. split; assumption.
    + split.
      * intros data. split; intros [= <-]; reflexivity.
      * intros e H; discriminate H.
  - split.
    + intros data. split; discriminate.
    + intros e [= <-]. split; [eexists; reflexivity|]. split; [reflexivity|].
      intros response' [= <-]. split; assumption.
Qed.

(** X16: the program of the effect version never fails: it exits with the
    data fetched, having written nothing, or, when the fetch failed in any
    way, with a record whose source is 'fallback', having written exactly
    one line to the error stream. *)
Theorem example_program_always_succeeds (fetch : Fetch) (out : list ConsoleLine) :
  exists data lines,
    EffectVersion.program fetch out = (Success data, out ++ lines)
    /\ ((PromiseVersion.main fetch = inr data /\ lines = [])
        \/ ((exists thrown, PromiseVersion.main fetch = inl thrown)
            /\ dataSource data = "fallback"%string
            /\ exists text, lines = [ConsoleError [ArgText text]])).
Proof.
  unfold EffectVersion.program, EffectVersion.catchAll, PromiseVersion.main.
  rewrite effect_version_run. unfold PromiseVersion.fetchFromSource.
  destruct (fetch (sourceUrl exampleSource)) as [thrown|response].
  { do 2 eexists. split; [reflexivity|]. right.
    split; [eexists; reflexivity|]. split; [reflexivity|]. eexists; reflexivity. }
  destruct (responseStatus response =? 429).
  { do 2 eexists. split; [reflexivity|]. right.
    split; [eexists; reflexivity|]. split; [reflexivity|]. eexists; reflexivity. }
  destruct (responseStatus response =? 403).
  { do 2 eexists. split; [reflexivity|]. right.
    split; [eexists; reflexivity|]. split; [reflexivity|]. eexists; reflexivity. }
  destruct (responseOk response); cbn [negb].
  - destruct (responseText response) as [thrown|content].
    + do 2 eexists. split; [reflexivity|]. right.
      split; [eexists; reflexivity|]. split; [reflexivity|]. eexists; reflexivity.
    + exists {| dataSource := sourceName exampleSource; dataContent := content |}, [].
      split; [rewrite app_nil_r; reflexivity|]. left. split; reflexivity.
  - do 2 eexists. split; [reflexivity|]. right.
    split; [eexists; reflexivity|]. split; [reflexivity|]. eexists; reflexivity.
Qed.
